(** * VaccineCleaner: the line scrubber and its Perforce glue

    A shallow embedding of [src/VaccineCleaner.py].

    A Python [str] is held as the Rocq [string] of its UTF-8 bytes:
    ASCII text one byte a character, as Maya ASCII scenes and the
    markers of the tool are, and any other code point as a lead byte
    followed by continuation bytes.  Substring tests read the bytes;
    indices and slices count code points, as Python does.  Python's
    unbounded [int] is [Z]. *)

From Stdlib Require Import ZArith Lia Bool Ascii String.
From stdpp Require Import base tactics option list strings.

Local Open Scope string_scope.
Local Open Scope list_scope.
Local Open Scope Z_scope.

(** ** Python string primitives used by the tool *)

Module PyStr.

(** [pat in s]: substring test. *)
Fixpoint contains (pat s : string) : bool :=
  if String.prefix pat s then true
  else match s with
       | EmptyString => false
       | String _ s' => contains pat s'
       end.

(** A byte [10xxxxxx] continues the code point begun before it. *)
Definition is_continuation (c : ascii) : bool :=
  let n := nat_of_ascii c in
  ((128 <=? n) && (n <=? 191))%nat.

(** [len(s)]: the number of code points. *)
Fixpoint len (s : string) : nat :=
  match s with
  | EmptyString => O
  | String c s' => if is_continuation c then len s' else S (len s')
  end.

(** [s.find(pat)]: index, in code points, of the first occurrence;
    [-1] when absent. *)
Fixpoint find (pat s : string) : Z :=
  if String.prefix pat s then 0
  else match s with
       | EmptyString => -1
       | String c s' =>
           let i := find pat s' in
           if i =? -1 then -1
           else if is_continuation c then i else i + 1
       end.

Fixpoint skip_continuation (s : string) : string :=
  match s with
  | EmptyString => EmptyString
  | String c s' => if is_continuation c then skip_continuation s' else s
  end.

(** [s[i:]], dropping [i] code points, with Python's slice rule for a
    negative start. *)
Fixpoint drop (n : nat) (s : string) : string :=
  match n with
  | O => s
  | S n' =>
      match s with
      | EmptyString => EmptyString
      | String _ s' => drop n' (skip_continuation s')
      end
  end.

Definition slice_from (i : Z) (s : string) : string :=
  let len := Z.of_nat (len s) in
  let start := if i <? 0 then Z.max 0 (len + i) else i in
  drop (Z.to_nat start) s.

(** What [str.lower] does to ASCII text: 'A'..'Z' go to 'a'..'z'.  The
    full [str.lower] follows the Unicode tables of the Python build and
    is a field of the environment below. *)
Definition lower_char (c : ascii) : ascii :=
  let n := nat_of_ascii c in
  if ((65 <=? n) && (n <=? 90))%nat then ascii_of_nat (n + 32) else c.

Fixpoint ascii_lower (s : string) : string :=
  match s with
  | EmptyString => EmptyString
  | String c s' => String (lower_char c) (ascii_lower s')
  end.

Definition is_ascii_char (c : ascii) : bool := (nat_of_ascii c <? 128)%nat.

Fixpoint is_ascii (s : string) : bool :=
  match s with
  | EmptyString => true
  | String c s' => is_ascii_char c && is_ascii s'
  end.

(** [s.replace(old, new)] for one-character [old] and [new], the only
    way the tool calls it. *)
Fixpoint replace (old new : ascii) (s : string) : string :=
  match s with
  | EmptyString => EmptyString
  | String c s' =>
      String (if Ascii.eqb c old then new else c) (replace old new s')
  end.

(** Whitespace of [str.strip()] below code point 128:
    TAB, LF, VT, FF, CR, FS, GS, RS, US and space. *)
Definition is_space (c : ascii) : bool :=
  let n := nat_of_ascii c in
  (((9 <=? n) && (n <=? 13)) || ((28 <=? n) && (n <=? 32)))%nat.

Fixpoint lstrip (s : string) : string :=
  match s with
  | EmptyString => EmptyString
  | String c s' => if is_space c then lstrip s' else s
  end.

Fixpoint rstrip (s : string) : string :=
  match s with
  | EmptyString => EmptyString
  | String c s' =>
      match rstrip s' with
      | EmptyString => if is_space c then EmptyString else String c EmptyString
      | r => String c r
      end
  end.

Definition strip (s : string) : string := rstrip (lstrip s).

(** [s.startswith((p1, ..., pn))]. *)
Definition startswith (ps : list string) (s : string) : bool :=
  existsb (fun p => String.prefix p s) ps.

(** [s.endswith(suf)]. *)
Fixpoint endswith (suf s : string) : bool :=
  if String.eqb suf s then true
  else match s with
       | EmptyString => false
       | String _ s' => endswith suf s'
       end.

(** The line feed. *)
Definition newline : ascii := "010"%char.

(** [s.split(sep)] for a one-character [sep]: the pieces between the
    separators, at least one piece. *)
Fixpoint split (sep : ascii) (s : string) : list string :=
  match s with
  | EmptyString => [EmptyString]
  | String c s' =>
      if Ascii.eqb c sep then EmptyString :: split sep s'
      else match split sep s' with
           | w :: ws => String c w :: ws
           | [] => [String c EmptyString]
           end
  end.

(** [sep.join(l)]. *)
Fixpoint join (sep : string) (l : list string) : string :=
  match l with
  | [] => EmptyString
  | x :: rest =>
      match rest with
      | [] => x
      | _ :: _ => x +:+ sep +:+ join sep rest
      end
  end.

End PyStr.

(** ** The scrub pass (lines 61-83 of [clean_ma_file]) *)

Record ScrubState : Type := MkScrub {
  cleaned_lines : list string;
  skip_lines : Z;
  modified : bool
}.

Definition is_block_start (line : string) : bool :=
  PyStr.contains "createNode script" line && PyStr.contains "vaccine_gene" line.

Definition inside_prefix (line : string) : bool :=
  PyStr.startswith ["addAttr"; "setAttr"; "["] (PyStr.strip line).

Definition no_marker (line : string) : bool :=
  negb (PyStr.contains "createNode" line) && negb (PyStr.contains "breed_gene" line).

(** One iteration of [for line in lines]; every [continue] ends the
    iteration with the state shown. *)
Definition scrub_step (st : ScrubState) (line : string) : ScrubState :=
  if is_block_start line then
    MkScrub (cleaned_lines st) 10 true
  else if 0 <? skip_lines st then
    if negb (inside_prefix line) then
      if no_marker line then
        MkScrub (cleaned_lines st ++ [line]) 0 (modified st)
      else
        MkScrub (cleaned_lines st) (skip_lines st - 1) (modified st)
    else
      MkScrub (cleaned_lines st) (skip_lines st - 1) (modified st)
  else
    MkScrub (cleaned_lines st ++ [line]) (skip_lines st) (modified st).

Definition scrub_init : ScrubState := MkScrub [] 0 false.

Definition scrub_run (st : ScrubState) (lines : list string) : ScrubState :=
  fold_left scrub_step lines st.

(** The [ScrubResult] of the specification: cleaned lines and the flag. *)
Definition scrub (lines : list string) : list string * bool :=
  let st := scrub_run scrub_init lines in
  (cleaned_lines st, modified st).

(** The step as section 4.1 of the specification words it: the
    block-start test is guarded by [skip == 0].  Kept apart from
    [scrub_step], which follows the source. *)
Definition spec_step (st : ScrubState) (line : string) : ScrubState :=
  if (skip_lines st =? 0) && is_block_start line then
    MkScrub (cleaned_lines st) 10 true
  else if 0 <? skip_lines st then
    if inside_prefix line then
      MkScrub (cleaned_lines st) (skip_lines st - 1) (modified st)
    else if no_marker line then
      MkScrub (cleaned_lines st ++ [line]) 0 (modified st)
    else
      MkScrub (cleaned_lines st) (skip_lines st - 1) (modified st)
  else
    MkScrub (cleaned_lines st ++ [line]) (skip_lines st) (modified st).

Definition spec_scrub (lines : list string) : list string * bool :=
  let st := fold_left spec_step lines scrub_init in
  (cleaned_lines st, modified st).

(** ** The orchestrator: effects as a trace of events

    Every call that leaves the process (Perforce, the file system) is an
    event whose outcome is chosen by the environment, as a function of
    the events so far.  A computation maps the history to the events it
    adds and to its outcome: a value or a raised exception. *)

Inductive PyExn : Type :=
| P4Exception (msg : string)
| PermissionError (msg : string)
| OtherError (msg : string).

Inductive Outcome (A : Type) : Type :=
| Returns (a : A)
| Raises (e : PyExn).
Arguments Returns {A} a.
Arguments Raises {A} e.

Inductive Event : Type :=
| EvConnect (r : Outcome bool)
| EvEdit (depot_path : string) (r : Outcome unit)
| EvStat (path : string) (r : Outcome Z)
| EvChmod (path : string) (mode : Z) (r : Outcome unit)
| EvRead (path : string) (r : Outcome (list string))
| EvWrite (path : string) (lines : list string) (r : Outcome unit)
| EvFetchChange (r : Outcome unit)
| EvSubmit (description : string) (files : list string) (r : Outcome unit)
| EvRevert (depot_path : string) (r : Outcome unit)
| EvDisconnect (r : Outcome unit)
| EvLog (msg : string)
| EvPrint (msg : string).

Definition Trace : Type := list Event.

Record Env : Type := MkEnv {
  p4_connect : Trace -> Outcome bool;
  p4_run_edit : Trace -> string -> Outcome unit;
  os_stat_mode : Trace -> string -> Outcome Z;
  os_chmod : Trace -> string -> Z -> Outcome unit;
  file_readlines : Trace -> string -> Outcome (list string);
  file_writelines : Trace -> string -> list string -> Outcome unit;
  p4_fetch_change : Trace -> Outcome unit;
  p4_run_submit : Trace -> string -> list string -> Outcome unit;
  p4_run_revert : Trace -> string -> Outcome unit;
  p4_disconnect : Trace -> Outcome unit;
  os_path_exists : Trace -> string -> bool;
  (** [os.path.splitdrive] of the platform the tool runs on. *)
  splitdrive : string -> string * string;
  (** [str.lower] of the Python build. *)
  str_lower : string -> string
}.

Definition M (A : Type) : Type := Trace -> Trace * Outcome A.

Definition ret {A} (a : A) : M A := fun _ => ([], Returns a).

Definition bind {A B} (m : M A) (k : A -> M B) : M B :=
  fun h =>
    let (evs1, r1) := m h in
    match r1 with
    | Returns a => let (evs2, r2) := k a (h ++ evs1) in (evs1 ++ evs2, r2)
    | Raises e => (evs1, Raises e)
    end.

#[global] Instance M_ret : MRet M := @ret.
#[global] Instance M_bind : MBind M := fun A B k m => bind m k.

(** An external call: ask the environment, record the event. *)
Definition call {A} (resp : Trace -> Outcome A) (ev : Outcome A -> Event) : M A :=
  fun h => let r := resp h in ([ev r], r).

Definition emit (ev : Event) : M unit := fun _ => ([ev], Returns tt).

(** [try: body  except <kind> as e: handler e]; [handler] answers
    [None] for the exceptions the clause does not name. *)
Definition try_except {A} (body : M A) (handler : PyExn -> option (M A)) : M A :=
  fun h =>
    let (evs1, r1) := body h in
    match r1 with
    | Returns a => (evs1, Returns a)
    | Raises e =>
        match handler e with
        | Some k => let (evs2, r2) := k (h ++ evs1) in (evs1 ++ evs2, r2)
        | None => (evs1, Raises e)
        end
    end.

(** [try: body  finally: fin]; an exception of [fin] replaces the
    outcome of [body]. *)
Definition try_finally {A} (body : M A) (fin : M unit) : M A :=
  fun h =>
    let (evs1, r1) := body h in
    let (evs2, r2) := fin (h ++ evs1) in
    match r2 with
    | Returns _ => (evs1 ++ evs2, r1)
    | Raises e => (evs1 ++ evs2, Raises e)
    end.

Definition on_P4Exception {A} (k : string -> M A) (e : PyExn) : option (M A) :=
  match e with P4Exception msg => Some (k msg) | _ => None end.

Definition on_PermissionError {A} (k : string -> M A) (e : PyExn) : option (M A) :=
  match e with PermissionError msg => Some (k msg) | _ => None end.

Definition log_append (msg : string) : M unit := emit (EvLog msg).
Definition print (msg : string) : M unit := emit (EvPrint msg).

(** The backslash character. *)
Definition backslash : ascii := "092"%char.

(** [stat.S_IWRITE] *)
Definition S_IWRITE : Z := 128.

Section Orchestrator.
Variable env : Env.

Definition unset_readonly (file_path : string) : M unit :=
  file_permissions ← call (fun h => os_stat_mode env h file_path) (EvStat file_path);
  if Z.land file_permissions S_IWRITE =? 0 then
    call (fun h => os_chmod env h file_path S_IWRITE) (EvChmod file_path S_IWRITE)
  else mret tt.

Definition local_to_perforce_path (local_path : string) : string :=
  let '(drive, tail) := splitdrive env local_path in
  let index := PyStr.find "potter" (str_lower env tail) in
  if negb (index =? -1) then
    let tail := PyStr.replace backslash "/" (PyStr.slice_from index tail) in
    "//" +:+ tail
  else local_path.

(** Lines 91-101: create the changelist and submit it; on a Perforce
    exception log it and revert the checkout. *)
Definition submit_or_revert (depot_path : string) : M unit :=
  try_except
    (call (p4_fetch_change env) EvFetchChange;;
     call (fun h => p4_run_submit env h "Removed Vaccine virus from file" [depot_path])
          (EvSubmit "Removed Vaccine virus from file" [depot_path]);;
     log_append ("Submitted: " +:+ depot_path))
    (on_P4Exception (fun e =>
       log_append ("Error submitting file: " +:+ depot_path +:+ " " +:+ e);;
       call (fun h => p4_run_revert env h depot_path) (EvRevert depot_path))).

(** Lines 55-103, reached once the checkout succeeded. *)
Definition clean_checked_out (file_path depot_path : string) : M unit :=
  unset_readonly file_path;;
  lines ← call (fun h => file_readlines env h file_path) (EvRead file_path);
  let '(cleaned, modified) := scrub lines in
  if modified then
    call (fun h => file_writelines env h file_path cleaned) (EvWrite file_path cleaned);;
    log_append ("Cleaned: " +:+ file_path);;
    submit_or_revert depot_path
  else
    log_append ("No changes were made: " +:+ file_path).

(** Lines 39-103, the body of the outer [try].  The two early
    [return]s of the source are the branches that do not run the rest
    of the body. *)
Definition clean_ma_file_body (file_path : string) : M unit :=
  p4Dict ← call (p4_connect env) EvConnect;
  if negb p4Dict then
    log_append "Failed to connect to Perforce."
  else
    let depot_path := local_to_perforce_path file_path in
    log_append ("Checking out file: " +:+ depot_path);;
    checked_out ← try_except
      (call (fun h => p4_run_edit env h depot_path) (EvEdit depot_path);;
       mret true)
      (on_P4Exception (fun e =>
         log_append ("Error checking out file: " +:+ depot_path +:+ " " +:+ e);;
         mret false));
    if (checked_out : bool) then clean_checked_out file_path depot_path
    else mret tt.

(** [p4 = P4()] is an object and so truthy: [finally] always
    disconnects. *)
Definition clean_ma_file (file_path : string) : M unit :=
  try_finally
    (try_except
       (clean_ma_file_body file_path)
       (on_PermissionError (fun e =>
          log_append ("Error: " +:+ e +:+ " - Could not modify " +:+ file_path);;
          print ("Error: " +:+ e +:+ " - Could not modify " +:+ file_path))))
    (call (p4_disconnect env) EvDisconnect).

(** The [for file_path in file_paths] loop of [clean_pasted_files],
    threading [cleaned_count]. *)
Fixpoint process_files (file_paths : list string) (cleaned_count : Z) : M Z :=
  match file_paths with
  | [] => mret cleaned_count
  | file_path :: rest =>
      let file_path := PyStr.strip file_path in
      exists_ ← (fun h => ([], Returns (os_path_exists env h file_path)));
      if exists_ && PyStr.endswith ".ma" file_path then
        clean_ma_file file_path;;
        process_files rest (cleaned_count + 1)
      else
        log_append ("Invalid path: " +:+ file_path);;
        print ("Invalid path: " +:+ file_path);;
        process_files rest cleaned_count
  end.

End Orchestrator.

(** ** The path box of the window

    The text of [path_input] is the only state the two handlers share;
    each is modelled by what it does to, or reads from, that text. *)

(** [open_file_dialog], lines 176-191: the new text of the box for the
    paths [file_paths] chosen in the dialog; an empty choice leaves the
    text as it is. *)
Definition open_file_dialog (text : string) (file_paths : list string) : string :=
  let existing_paths := PyStr.strip text in
  match file_paths with
  | [] => text
  | _ :: _ =>
      let selected_paths := PyStr.join (String PyStr.newline "") file_paths in
      if negb (String.eqb existing_paths "") then
        existing_paths +:+ String PyStr.newline "" +:+ selected_paths
      else selected_paths
  end.

(** [clean_pasted_files], lines 198-201: the paths read from the box. *)
Definition pasted_file_paths (pasted_text : string) : list string :=
  PyStr.split PyStr.newline (PyStr.strip pasted_text).

(** Line 203: [not file_paths or file_paths == ['']]. *)
Definition no_valid_paths (file_paths : list string) : bool :=
  match file_paths with
  | [] => true
  | [p] => String.eqb p ""
  | _ => false
  end.

(** The event of a changelist creation or submit that raised a
    Perforce exception with message [msg]. *)
Definition submit_failure (msg : string) (ev : Event) : Prop :=
  ev = EvFetchChange (Raises (P4Exception msg))
  \/ exists description files,
       ev = EvSubmit description files (Raises (P4Exception msg)).

(** ** Sample lines *)

Definition dquote : string := String "034"%char EmptyString.
Definition nl : string := String "010"%char EmptyString.

Definition line_start : string :=
  "createNode script " +:+ dquote +:+ "vaccine_gene" +:+ dquote +:+ nl.
Definition line_addAttr : string := "addAttr ..." +:+ nl.
Definition line_setAttr : string := "setAttr ..." +:+ nl.
Definition line_other : string := "other content" +:+ nl.
Definition line_transform : string :=
  "createNode transform -n " +:+ dquote +:+ "pCube1" +:+ dquote +:+ ";" +:+ nl.

(** A Windows drive-letter split: [ntpath.splitdrive] on paths that are
    not UNC. *)
Definition splitdrive_nt (p : string) : string * string :=
  match p with
  | String c (String ":" rest) => (String c (String ":" EmptyString), rest)
  | _ => (EmptyString, p)
  end.

(** [str.lower] on text made of ASCII characters and of U+0130, LATIN
    CAPITAL LETTER I WITH DOT ABOVE (UTF-8 [C4 B0]), whose lower case
    is two code points: [i] and U+0307, COMBINING DOT ABOVE (UTF-8
    [CC 87]). *)
Fixpoint lower_ascii_dotted_I (s : string) : string :=
  match s with
  | EmptyString => EmptyString
  | String c s' =>
      match s' with
      | String d s'' =>
          if Ascii.eqb c "196" && Ascii.eqb d "176" then
            String "i" (String "204" (String "135" (lower_ascii_dotted_I s'')))
          else String (PyStr.lower_char c) (lower_ascii_dotted_I s')
      | EmptyString => String (PyStr.lower_char c) EmptyString
      end
  end.

(** An environment where the submit raises and everything before it
    succeeds; the outcomes of the revert and of the disconnect are
    left to choose. *)
Definition env_submit_fails (content : list string)
    (r_revert r_disconnect : Outcome unit) : Env :=
  MkEnv
    (fun _ => Returns true)
    (fun _ _ => Returns tt)
    (fun _ _ => Returns 292)
    (fun _ _ _ => Returns tt)
    (fun _ _ => Returns content)
    (fun _ _ _ => Returns tt)
    (fun _ => Returns tt)
    (fun _ _ _ => Raises (P4Exception "submit failed"))
    (fun _ _ => r_revert)
    (fun _ => r_disconnect)
    (fun _ _ => true)
    splitdrive_nt
    lower_ascii_dotted_I.

Definition sample_path : string := "C:\Perforce\Potter\Art\scene.ma".
Definition sample_path2 : string := "C:\Perforce\Potter\Art\other.ma".

(** A path through a folder named U+0130. *)
Definition dotted_I : string := String "196" (String "176" EmptyString).
Definition sample_path_dotted_I : string :=
  "C:\" +:+ dotted_I +:+ "\Potter\a.ma".

Definition sample_env : Env :=
  env_submit_fails [line_start; line_other] (Returns tt) (Returns tt).

Definition sample_run : Trace * Outcome unit :=
  clean_ma_file sample_env sample_path [].

(** The same with a revert, respectively a disconnect, that raises. *)
Definition sample_env_revert_raises : Env :=
  env_submit_fails [line_start; line_other]
    (Raises (P4Exception "revert failed")) (Returns tt).

Definition sample_env_disconnect_raises : Env :=
  env_submit_fails [line_start; line_other]
    (Returns tt) (Raises (P4Exception "disconnect failed")).

(** An environment with constant answers: the connect succeeds, the
    file is writable (mode 0o644), and the outcomes of the checkout, of
    the read and of the submit are left to choose. *)
Definition env_outcomes (r_edit : Outcome unit)
    (r_read : Outcome (list string)) (r_submit : Outcome unit) : Env :=
  MkEnv
    (fun _ => Returns true)
    (fun _ _ => r_edit)
    (fun _ _ => Returns 420)
    (fun _ _ _ => Returns tt)
    (fun _ _ => r_read)
    (fun _ _ _ => Returns tt)
    (fun _ => Returns tt)
    (fun _ _ _ => r_submit)
    (fun _ _ => Returns tt)
    (fun _ => Returns tt)
    (fun _ _ => true)
    splitdrive_nt
    lower_ascii_dotted_I.

Definition sample_env_ok : Env :=
  env_outcomes (Returns tt) (Returns [line_start; line_other]) (Returns tt).

Definition sample_env_clean_file : Env :=
  env_outcomes (Returns tt) (Returns [line_setAttr; line_other]) (Returns tt).

Definition sample_env_checkout_fails : Env :=
  env_outcomes (Raises (P4Exception "not on client"))
    (Returns [line_start; line_other]) (Returns tt).

Definition sample_env_read_denied : Env :=
  env_outcomes (Returns tt) (Raises (PermissionError "denied")) (Returns tt).

(** ** Reading events *)

Definition is_connect (ev : Event) : bool :=
  match ev with
  | EvConnect _ => true
  | _ => false
  end.

(** The exception an external call raised, if it raised one. *)
Definition raised (ev : Event) : option PyExn :=
  match ev with
  | EvConnect (Raises e) | EvEdit _ (Raises e) | EvStat _ (Raises e)
  | EvChmod _ _ (Raises e) | EvRead _ (Raises e) | EvWrite _ _ (Raises e)
  | EvFetchChange (Raises e) | EvSubmit _ _ (Raises e) | EvRevert _ (Raises e)
  | EvDisconnect (Raises e) => Some e
  | _ => None
  end.

(** ** Proof automation for traces *)

(** A hypothesis claims that an event of another kind is a failed
    submit. *)
Ltac not_failure :=
  match goal with
  | H : submit_failure _ _ |- _ =>
      solve [ destruct H as [H | (? & ? & H)]; discriminate H ]
  end.

(** Walk a hypothesis [Exists (submit_failure msg) [e1; ...]] down the
    list, dropping the events that cannot be the failure. *)
Ltac scan_failure H :=
  repeat first
    [ apply Exists_nil in H; destruct H
    | apply Exists_cons in H; destruct H as [H | H]; [try not_failure|] ].

(** ** Facts about the string primitives *)

Section StringFacts.

Lemma append_nil_l (s : string) : "" +:+ s = s.
Proof. reflexivity. Qed.

Lemma append_cons (c : ascii) (a b : string) :
  String c a +:+ b = String c (a +:+ b).
Proof. reflexivity. Qed.

Lemma prefix_nil (s : string) : String.prefix "" s = true.
Proof. by destruct s. Qed.

Lemma prefix_split (p s : string) :
  String.prefix p s = true <-> exists b, s = p +:+ b.
Proof.
  revert s; induction p as [|c p IH]; intros s.
  - rewrite prefix_nil. split; [intros _; by exists s | done].
  - destruct s as [|d s]; simpl.
    + split; [done | intros [b Hb]; discriminate].
    + destruct (ascii_dec c d) as [->|Hne].
      * rewrite IH. split; intros [b Hb]; exists b.
        -- by rewrite Hb.
        -- rewrite append_cons in Hb. by inversion Hb.
      * split; [done | intros [b Hb]].
        rewrite append_cons in Hb. inversion Hb; congruence.
Qed.

Lemma contains_split (pat s : string) :
  PyStr.contains pat s = true <-> exists a b, s = a +:+ pat +:+ b.
Proof.
  induction s as [|c s IH]; cbn [PyStr.contains].
  - destruct (String.prefix pat "") eqn:E.
    + split; [intros _ | done].
      apply prefix_split in E as [b Hb]. by exists "", b.
    + split; [done | intros (a & b & Hab)].
      destruct a; [|discriminate]. rewrite append_nil_l in Hab.
      enough (String.prefix pat "" = true) by congruence.
      apply prefix_split. by exists b.
  - destruct (String.prefix pat (String c s)) eqn:E.
    + split; [intros _ | done].
      apply prefix_split in E as [b Hb]. by exists "", b.
    + rewrite IH. split.
      * intros (a & b & ->). by exists (String c a), b.
      * intros (a & b & Hab). destruct a as [|d a].
        -- rewrite append_nil_l in Hab.
           enough (String.prefix pat (String c s) = true) by congruence.
           apply prefix_split. by exists b.
        -- rewrite append_cons in Hab. inversion Hab; subst. by exists a, b.
Qed.

Lemma append_assoc (a b c : string) : (a +:+ b) +:+ c = a +:+ (b +:+ c).
Proof.
  induction a as [|x a IH]; [done|]. by rewrite !append_cons, IH.
Qed.

Lemma contains_weaken (p q s : string) :
  PyStr.contains (p +:+ q) s = true -> PyStr.contains p s = true.
Proof.
  rewrite !contains_split. intros (a & b & ->).
  exists a, (q +:+ b). by rewrite append_assoc.
Qed.

End StringFacts.

(** ** Facts about the scrub pass *)

Section ScrubFacts.

Implicit Types (st : ScrubState) (line : string) (lines : list string).

Lemma block_start_has_marker line :
  is_block_start line = true -> no_marker line = false.
Proof.
  unfold is_block_start, no_marker. intros [H1 _]%andb_true_iff.
  apply (contains_weaken "createNode" " script") in H1. by rewrite H1.
Qed.

Lemma no_marker_not_start line :
  no_marker line = true -> is_block_start line = false.
Proof.
  intros H. destruct (is_block_start line) eqn:E; [|done].
  apply block_start_has_marker in E. congruence.
Qed.

Lemma scrub_step_start st line :
  is_block_start line = true ->
  scrub_step st line = MkScrub (cleaned_lines st) 10 true.
Proof. intros H. unfold scrub_step. by rewrite H. Qed.

Lemma scrub_step_idle st line :
  is_block_start line = false -> skip_lines st <= 0 ->
  scrub_step st line =
    MkScrub (cleaned_lines st ++ [line]) (skip_lines st) (modified st).
Proof.
  intros H Hk. unfold scrub_step. rewrite H.
  by destruct (Z.ltb_spec 0 (skip_lines st)); [lia|].
Qed.

Lemma scrub_step_exit st line :
  0 < skip_lines st -> inside_prefix line = false -> no_marker line = true ->
  scrub_step st line = MkScrub (cleaned_lines st ++ [line]) 0 (modified st).
Proof.
  intros Hk Hp Hm. unfold scrub_step.
  rewrite (no_marker_not_start _ Hm), Hp, Hm.
  by destruct (Z.ltb_spec 0 (skip_lines st)); [|lia].
Qed.

Lemma scrub_step_discard st line :
  is_block_start line = false -> 0 < skip_lines st ->
  inside_prefix line = true \/ no_marker line = false ->
  scrub_step st line =
    MkScrub (cleaned_lines st) (skip_lines st - 1) (modified st).
Proof.
  intros H Hk Hd. unfold scrub_step. rewrite H.
  destruct (Z.ltb_spec 0 (skip_lines st)); [|lia].
  destruct Hd as [-> | ->]; [done|]. by destruct (inside_prefix line).
Qed.

Lemma scrub_run_cons st line lines :
  scrub_run st (line :: lines) = scrub_run (scrub_step st line) lines.
Proof. reflexivity. Qed.

Lemma scrub_run_app st l1 l2 :
  scrub_run st (l1 ++ l2) = scrub_run (scrub_run st l1) l2.
Proof. apply fold_left_app. Qed.

(** The lines already kept and the flag already raised ride along:
    the pass only looks at the counter. *)
Lemma scrub_step_frame acc k m line :
  scrub_step (MkScrub acc k m) line =
    let s := scrub_step (MkScrub [] k false) line in
    MkScrub (acc ++ cleaned_lines s) (skip_lines s) (m || modified s).
Proof.
  unfold scrub_step; cbn.
  repeat case_match; cbn; rewrite ?app_nil_r, ?orb_false_r, ?orb_true_r; done.
Qed.

Lemma scrub_run_frame lines : forall acc k m,
  scrub_run (MkScrub acc k m) lines =
    let s := scrub_run (MkScrub [] k false) lines in
    MkScrub (acc ++ cleaned_lines s) (skip_lines s) (m || modified s).
Proof.
  induction lines as [|a l IH]; intros acc k m.
  - cbn. by rewrite app_nil_r, orb_false_r.
  - rewrite !scrub_run_cons, scrub_step_frame.
    destruct (scrub_step (MkScrub [] k false) a) as [acc1 k1 m1]. cbn zeta.
    cbn [cleaned_lines skip_lines modified].
    rewrite (IH (acc ++ acc1) k1 (m || m1)), (IH acc1 k1 m1). cbn zeta.
    cbn [cleaned_lines skip_lines modified].
    by rewrite app_assoc, orb_assoc.
Qed.

Lemma scrub_run_clean lines : forall acc k m,
  k <= 0 -> Forall (fun x => is_block_start x = false) lines ->
  scrub_run (MkScrub acc k m) lines = MkScrub (acc ++ lines) k m.
Proof.
  induction lines as [|a l IH]; intros acc k m Hk Hl.
  - cbn. by rewrite app_nil_r.
  - inversion Hl; subst. rewrite scrub_run_cons, scrub_step_idle by done.
    cbn [cleaned_lines skip_lines modified]. rewrite IH by done.
    by rewrite <- app_assoc.
Qed.

Lemma scrub_clean lines :
  Forall (fun x => is_block_start x = false) lines ->
  scrub lines = (lines, false).
Proof.
  intros H. unfold scrub, scrub_init. by rewrite scrub_run_clean.
Qed.

Lemma scrub_run_no_start lines : forall st,
  Forall (fun x => is_block_start x = false) (cleaned_lines st) ->
  Forall (fun x => is_block_start x = false) (cleaned_lines (scrub_run st lines)).
Proof.
  induction lines as [|a l IH]; intros st Hst; [done|].
  rewrite scrub_run_cons. apply IH. unfold scrub_step.
  destruct (is_block_start a) eqn:Ea; [done|].
  repeat case_match; cbn; try done; apply Forall_app; by repeat constructor.
Qed.

Lemma scrub_run_modified lines : forall st,
  modified (scrub_run st lines) = modified st || existsb is_block_start lines.
Proof.
  induction lines as [|a l IH]; intros st.
  - cbn. by rewrite orb_false_r.
  - rewrite scrub_run_cons, IH. cbn [existsb]. unfold scrub_step.
    destruct (is_block_start a); cbn; [by rewrite orb_true_r|].
    by repeat case_match.
Qed.

Lemma scrub_run_sublist lines : forall st,
  exists out, cleaned_lines (scrub_run st lines) = cleaned_lines st ++ out
              /\ out `sublist_of` lines.
Proof.
  induction lines as [|a l IH]; intros st.
  - exists []. cbn. by rewrite app_nil_r.
  - rewrite scrub_run_cons.
    destruct (IH (scrub_step st a)) as (out & -> & Hsub).
    unfold scrub_step. repeat case_match; cbn.
    all: first [ exists out; split; [done | by apply sublist_cons]
               | exists (a :: out); split;
                 [by rewrite <- app_assoc | by apply sublist_skip] ].
Qed.

(** After a block start, fewer than ten lines that the skip branch
    discards leave the counter positive and the output untouched. *)
Lemma scrub_run_discards mid : forall acc k m,
  Forall (fun x => inside_prefix x = true \/ no_marker x = false) mid ->
  Z.of_nat (length mid) < k -> k <= 10 ->
  exists k', scrub_run (MkScrub acc k m) mid
             = MkScrub acc k' (m || existsb is_block_start mid) /\ 0 < k'.
Proof.
  induction mid as [|a l IH]; intros acc k m Hl Hlen Hk.
  - exists k. cbn in *. rewrite orb_false_r. split; [done | lia].
  - inversion Hl as [|? ? Ha Hl']; subst. rewrite scrub_run_cons.
    cbn [length existsb] in *.
    destruct (is_block_start a) eqn:Ea.
    + rewrite scrub_step_start by done. cbn [cleaned_lines].
      destruct (IH acc 10 true Hl') as (k' & -> & Hk'); [lia.. |].
      exists k'. by rewrite orb_true_r.
    + rewrite scrub_step_discard by (done || cbn; lia).
      cbn [cleaned_lines skip_lines modified].
      destruct (IH acc (k - 1) m Hl') as (k' & -> & Hk'); [lia.. |].
      by exists k'.
Qed.

(** A block start, then at most nine discarded lines, then a line that
    neither carries an inside prefix nor a marker: the line is kept,
    the counter drops to zero and the rest is scrubbed afresh. *)
Lemma scrub_block_exit pre start mid line rest :
  is_block_start start = true ->
  Forall (fun x => inside_prefix x = true \/ no_marker x = false) mid ->
  (length mid <= 9)%nat ->
  inside_prefix line = false -> no_marker line = true ->
  let st := scrub_run scrub_init (pre ++ start :: mid) in
  cleaned_lines st = fst (scrub pre)
  /\ 0 < skip_lines st
  /\ scrub_step st line = MkScrub (fst (scrub pre) ++ [line]) 0 true
  /\ scrub (pre ++ start :: mid ++ line :: rest)
     = (fst (scrub pre) ++ line :: fst (scrub rest), true).
Proof.
  intros Hs Hmid Hlen Hp Hm st.
  assert (exists k', st = MkScrub (fst (scrub pre)) k' true /\ 0 < k')
    as (k' & Hst & Hk').
  { subst st. rewrite scrub_run_app, scrub_run_cons, scrub_step_start by done.
    destruct (scrub_run_discards mid (cleaned_lines (scrub_run scrub_init pre))
                10 true Hmid) as (k' & -> & Hk'); [lia.. |].
    by exists k'. }
  assert (scrub_step st line = MkScrub (fst (scrub pre) ++ [line]) 0 true) as Hstep.
  { rewrite Hst. by rewrite scrub_step_exit. }
  rewrite Hst at 1 2. cbn [cleaned_lines skip_lines].
  repeat split; [done.. |].
  unfold scrub at 1.
  replace (pre ++ start :: mid ++ line :: rest)
    with ((pre ++ start :: mid) ++ line :: rest)
    by (by rewrite <- app_assoc).
  rewrite scrub_run_app, scrub_run_cons. fold st. rewrite Hstep.
  rewrite scrub_run_frame. cbn zeta. cbn [cleaned_lines modified orb].
  by rewrite <- app_assoc.
Qed.

End ScrubFacts.

(** ** The scrub pass: the properties settled *)

(** C1, as the source has it: a line carrying the block-start signature
    sets the counter to 10, raises [modified] and is dropped whatever
    the counter is; the skip-branch rules (drop and decrement on an
    inside prefix or a marker, keep and reset otherwise) apply to the
    other lines while the counter is positive, and a line met with the
    counter at zero is kept. *)
Theorem scrub_step_rules (st : ScrubState) (line : string) :
  (is_block_start line = true ->
     scrub_step st line = MkScrub (cleaned_lines st) 10 true)
  /\ (is_block_start line = false -> 0 < skip_lines st ->
      inside_prefix line = true ->
      scrub_step st line
      = MkScrub (cleaned_lines st) (skip_lines st - 1) (modified st))
  /\ (is_block_start line = false -> 0 < skip_lines st ->
      inside_prefix line = false -> no_marker line = true ->
      scrub_step st line = MkScrub (cleaned_lines st ++ [line]) 0 (modified st))
  /\ (is_block_start line = false -> 0 < skip_lines st ->
      inside_prefix line = false -> no_marker line = false ->
      scrub_step st line
      = MkScrub (cleaned_lines st) (skip_lines st - 1) (modified st))
  /\ (is_block_start line = false -> skip_lines st <= 0 ->
      scrub_step st line
      = MkScrub (cleaned_lines st ++ [line]) (skip_lines st) (modified st)).
Proof.
  repeat split; intros.
  - by apply scrub_step_start.
  - apply scrub_step_discard; auto.
  - by apply scrub_step_exit.
  - apply scrub_step_discard; auto.
  - by apply scrub_step_idle.
Qed.

Lemma scrub_step_rules_witness :
  scrub_step (MkScrub [line_other] 4 true) line_start
  = MkScrub [line_other] 10 true
  /\ scrub_step (MkScrub [line_other] 4 true) line_setAttr
     = MkScrub [line_other] 3 true
  /\ scrub_step (MkScrub [] 4 true) line_other = MkScrub [line_other] 0 true
  /\ scrub_step (MkScrub [] 4 true) line_transform = MkScrub [] 3 true
  /\ scrub_step (MkScrub [] 0 false) line_setAttr = MkScrub [line_setAttr] 0 false.
Proof.
  split; [|split; [|split; [|split]]].
  - destruct (scrub_step_rules (MkScrub [line_other] 4 true) line_start)
      as (H & _).
    apply H. vm_compute; reflexivity.
  - destruct (scrub_step_rules (MkScrub [line_other] 4 true) line_setAttr)
      as (_ & H & _).
    apply H; vm_compute; reflexivity.
  - destruct (scrub_step_rules (MkScrub [] 4 true) line_other)
      as (_ & _ & H & _).
    apply H; vm_compute; reflexivity.
  - destruct (scrub_step_rules (MkScrub [] 4 true) line_transform)
      as (_ & _ & _ & H & _).
    apply H; vm_compute; reflexivity.
  - destruct (scrub_step_rules (MkScrub [] 0 false) line_setAttr)
      as (_ & _ & _ & _ & H).
    apply H; vm_compute; congruence.
Defined.

(** C1 as worded fails: after a block start and one inside line the
    counter is 9, and a second block-start line sets it back to 10,
    where the guarded rule of the specification would count down to 8.
    The difference shows in the output: two start lines followed by ten
    [setAttr] lines are all dropped by the code, while the guarded rule
    keeps the tenth. *)
Lemma scrub_step_resets_counter_while_skipping :
  skip_lines (scrub_run scrub_init [line_start; line_setAttr]) = 9
  /\ is_block_start line_start = true
  /\ skip_lines (scrub_step (scrub_run scrub_init [line_start; line_setAttr])
                   line_start) = 10
  /\ skip_lines (spec_step (scrub_run scrub_init [line_start; line_setAttr])
                  line_start) = 8
  /\ scrub ([line_start; line_start] ++ repeat line_setAttr 10) = ([], true)
  /\ spec_scrub ([line_start; line_start] ++ repeat line_setAttr 10)
     = ([line_setAttr], true).
Proof. vm_compute. repeat split; reflexivity. Qed.

(** C2: without a block-start line the pass returns its input and
    [modified = false]. *)
Theorem scrub_without_block_start (lines : list string) :
  Forall (fun x => is_block_start x = false) lines ->
  scrub lines = (lines, false).
Proof. apply scrub_clean. Qed.

Lemma scrub_without_block_start_witness :
  scrub [line_addAttr; line_transform; line_other]
  = ([line_addAttr; line_transform; line_other], false).
Proof.
  apply (scrub_without_block_start [line_addAttr; line_transform; line_other]).
  repeat constructor.
Defined.

(** A block start and at most nine lines that the skip branch drops
    add nothing to the output and leave the counter positive. *)
Lemma scrub_block_discarded (pre mid : list string) (start : string) :
  is_block_start start = true ->
  Forall (fun x => inside_prefix x = true \/ no_marker x = false) mid ->
  (length mid <= 9)%nat ->
  exists k,
    scrub_run scrub_init (pre ++ start :: mid) = MkScrub (fst (scrub pre)) k true
    /\ 0 < k.
Proof.
  intros Hs Hmid Hlen.
  rewrite scrub_run_app, scrub_run_cons, scrub_step_start by done.
  destruct (scrub_run_discards mid (cleaned_lines (scrub_run scrub_init pre))
              10 true Hmid) as (k & -> & Hk); [lia.. |].
  by exists k.
Qed.

(** C3, as the source has it: a block-start line followed by at most
    nine lines with an inside prefix is removed whole and [modified] is
    true, whatever follows the block: the cleaned lines are those of
    the lines before the block followed by lines kept from the lines
    after it.  The line immediately after the block is kept unchanged
    when it has no inside prefix and carries neither [createNode] nor
    [breed_gene]; the lines after it are then scrubbed from a counter
    of zero. *)
Theorem scrub_removes_block (pre inside rest : list string) (start : string) :
  is_block_start start = true ->
  Forall (fun x => inside_prefix x = true) inside ->
  (length inside <= 9)%nat ->
  cleaned_lines (scrub_run scrub_init (pre ++ start :: inside)) = fst (scrub pre)
  /\ snd (scrub (pre ++ start :: inside ++ rest)) = true
  /\ (exists kept,
        fst (scrub (pre ++ start :: inside ++ rest)) = fst (scrub pre) ++ kept
        /\ kept `sublist_of` rest)
  /\ (forall next rest',
        rest = next :: rest' ->
        inside_prefix next = false -> no_marker next = true ->
        scrub (pre ++ start :: inside ++ rest)
        = (fst (scrub pre) ++ next :: fst (scrub rest'), true)).
Proof.
  intros Hs Hin Hlen.
  assert (Forall (fun x => inside_prefix x = true \/ no_marker x = false) inside)
    as Hmid by (eapply Forall_impl; [exact Hin | by left]).
  destruct (scrub_block_discarded pre inside start Hs Hmid Hlen)
    as (k & Hst & Hk).
  assert (scrub_run scrub_init (pre ++ start :: inside ++ rest)
          = scrub_run (MkScrub (fst (scrub pre)) k true) rest) as Hrun.
  { replace (pre ++ start :: inside ++ rest)
      with ((pre ++ start :: inside) ++ rest) by (by rewrite <- app_assoc).
    by rewrite scrub_run_app, Hst. }
  split; [by rewrite Hst|]. split; [|split].
  - unfold scrub; cbn [snd]. by rewrite Hrun, scrub_run_modified.
  - unfold scrub at 1; cbn [fst]. rewrite Hrun.
    destruct (scrub_run_sublist rest (MkScrub (fst (scrub pre)) k true))
      as (kept & -> & Hsub).
    by exists kept.
  - intros next rest' -> Hp Hm.
    by apply (scrub_block_exit pre start inside next rest').
Qed.

Lemma scrub_removes_block_witness :
  snd (scrub ([line_other] ++ line_start :: [line_addAttr; line_setAttr]
                ++ [line_transform; line_other])) = true
  /\ scrub ([line_other] ++ line_start :: [line_addAttr; line_setAttr]
              ++ [line_other; line_transform])
     = (fst (scrub [line_other]) ++ line_other :: fst (scrub [line_transform]),
        true).
Proof.
  split.
  - destruct (scrub_removes_block [line_other] [line_addAttr; line_setAttr]
                [line_transform; line_other] line_start) as (_ & H & _).
    + vm_compute; reflexivity.
    + repeat constructor.
    + simpl; lia.
    + exact H.
  - destruct (scrub_removes_block [line_other] [line_addAttr; line_setAttr]
                [line_other; line_transform] line_start) as (_ & _ & _ & H).
    + vm_compute; reflexivity.
    + repeat constructor.
    + simpl; lia.
    + apply (H line_other [line_transform]).
      * reflexivity.
      * vm_compute; reflexivity.
      * vm_compute; reflexivity.
Defined.

(** C3 as worded fails: the line after a three-line block is an
    ordinary [createNode transform] declaration, and the pass drops it
    with the block. *)
Lemma scrub_drops_createNode_after_block :
  is_block_start line_start = true
  /\ Forall (fun x => inside_prefix x = true) [line_addAttr; line_setAttr]
  /\ is_block_start line_transform = false
  /\ inside_prefix line_transform = false
  /\ scrub (line_start :: [line_addAttr; line_setAttr] ++ [line_transform; line_other])
     = ([line_other], true)
  /\ ~ In line_transform
        (fst (scrub (line_start :: [line_addAttr; line_setAttr]
                       ++ [line_transform; line_other]))).
Proof.
  split; [by vm_compute|]. split; [by repeat constructor|].
  do 3 (split; [by vm_compute|]).
  vm_compute. intros [H | []]. discriminate H.
Qed.

(** C4, as the source has it: when the k-th line (k < 10) after a block
    start has no inside prefix and carries neither [createNode] nor
    [breed_gene], the lines before it being dropped by the skip branch,
    the counter is positive there, the line is kept and the counter
    reset to 0; the following lines are scrubbed from a counter of
    zero, so all of them are kept provided none is a block start. *)
Theorem scrub_early_exit (pre mid rest : list string) (start line : string) :
  is_block_start start = true ->
  Forall (fun x => inside_prefix x = true \/ no_marker x = false) mid ->
  (length mid < 9)%nat ->
  inside_prefix line = false -> no_marker line = true ->
  let st := scrub_run scrub_init (pre ++ start :: mid) in
  0 < skip_lines st
  /\ scrub_step st line = MkScrub (fst (scrub pre) ++ [line]) 0 true
  /\ fst (scrub (pre ++ start :: mid ++ line :: rest))
     = fst (scrub pre) ++ line :: fst (scrub rest)
  /\ (Forall (fun x => is_block_start x = false) rest ->
      fst (scrub (pre ++ start :: mid ++ line :: rest))
      = fst (scrub pre) ++ line :: rest).
Proof.
  intros Hs Hmid Hlen Hp Hm st.
  destruct (scrub_block_exit pre start mid line rest) as (_ & Hk & Hstep & Hall);
    [done | done | lia | done | done |].
  fold st in Hk, Hstep. rewrite Hall. cbn [fst].
  repeat split; [done.. |].
  intros Hrest. by rewrite (scrub_clean rest Hrest).
Qed.

Lemma scrub_early_exit_witness :
  0 < skip_lines (scrub_run scrub_init ([] ++ line_start :: [line_addAttr]))
  /\ fst (scrub ([] ++ line_start :: [line_addAttr] ++ line_other :: [line_setAttr]))
     = fst (scrub []) ++ line_other :: [line_setAttr].
Proof.
  destruct (scrub_early_exit [] [line_addAttr] [line_setAttr] line_start line_other)
    as (Hk & _ & _ & Hrest).
  - vm_compute; reflexivity.
  - constructor; [left; vm_compute; reflexivity | constructor].
  - simpl; lia.
  - vm_compute; reflexivity.
  - vm_compute; reflexivity.
  - split; [exact Hk|]. apply Hrest. repeat constructor.
Defined.

(** C4 as worded fails: the first line after the block start ends the
    skipping and is kept, yet a later block is removed, so not all
    subsequent lines are kept. *)
Lemma scrub_early_exit_then_second_block :
  is_block_start line_start = true
  /\ inside_prefix line_other = false
  /\ no_marker line_other = true
  /\ scrub [line_start; line_other; line_start; line_setAttr; line_other]
     = ([line_other; line_other], true)
  /\ ~ In line_setAttr
        (fst (scrub [line_start; line_other; line_start; line_setAttr; line_other])).
Proof.
  do 4 (split; [by vm_compute|]).
  vm_compute. intros [H | [H | []]]; discriminate H.
Qed.

(** C5: scrubbing the output of a first pass changes nothing and
    reports [modified = false]. *)
Theorem scrub_idempotent (lines : list string) :
  scrub (fst (scrub lines)) = (fst (scrub lines), false).
Proof.
  apply scrub_clean. unfold scrub; cbn [fst].
  by apply scrub_run_no_start.
Qed.

(** C6: the cleaned lines are a subsequence of the input, each kept
    line unchanged and in its original order. *)
Theorem scrub_sublist (lines : list string) :
  fst (scrub lines) `sublist_of` lines.
Proof.
  unfold scrub; cbn [fst].
  destruct (scrub_run_sublist lines scrub_init) as (out & -> & Hsub).
  done.
Qed.

(** C7: the end-to-end example of the specification. *)
Theorem scrub_example :
  scrub [line_start; line_addAttr; line_setAttr; line_other]
  = ([line_other], true).
Proof. vm_compute. reflexivity. Qed.

(** C10: no cleaned line carries the block-start signature, since a
    block-start line is dropped whatever the counter is, and
    [modified] is true exactly when some input line carries it. *)
Theorem scrub_drops_every_block_start (lines : list string) :
  Forall (fun x => is_block_start x = false) (fst (scrub lines))
  /\ (snd (scrub lines) = true <-> Exists (fun x => is_block_start x = true) lines)
  /\ (forall st line, is_block_start line = true ->
        cleaned_lines (scrub_step st line) = cleaned_lines st).
Proof.
  unfold scrub; cbn [fst snd]. split; [by apply scrub_run_no_start|]. split.
  - rewrite scrub_run_modified. cbn [scrub_init modified orb].
    rewrite existsb_exists, Exists_exists. split.
    + intros (x & Hin & Hx). exists x. split; [by apply list_elem_of_In | done].
    + intros (x & Hin & Hx). exists x. split; [by apply list_elem_of_In | done].
  - intros st line H. by rewrite scrub_step_start.
Qed.

Lemma scrub_drops_every_block_start_witness :
  snd (scrub [line_other; line_start]) = true
  /\ cleaned_lines (scrub_step (MkScrub [line_other] 3 true) line_start) = [line_other].
Proof.
  destruct (scrub_drops_every_block_start [line_other; line_start])
    as (_ & Hiff & Hstep).
  split.
  - apply Hiff. right. left. vm_compute; reflexivity.
  - apply (Hstep (MkScrub [line_other] 3 true) line_start). vm_compute; reflexivity.
Defined.

(** ** Facts about [find] and slices on ASCII text *)

Section PathFacts.

Lemma ascii_not_continuation (c : ascii) :
  PyStr.is_ascii_char c = true -> PyStr.is_continuation c = false.
Proof.
  destruct c as [[] [] [] [] [] [] [] []]; vm_compute; congruence.
Qed.

Lemma lower_char_ascii (c : ascii) :
  PyStr.is_ascii_char c = true -> PyStr.is_ascii_char (PyStr.lower_char c) = true.
Proof.
  destruct c as [[] [] [] [] [] [] [] []]; vm_compute; congruence.
Qed.

Lemma skip_continuation_ascii (s : string) :
  PyStr.is_ascii s = true -> PyStr.skip_continuation s = s.
Proof.
  destruct s as [|c s]; [done|]. cbn [PyStr.is_ascii PyStr.skip_continuation].
  intros [Hc%ascii_not_continuation _]%andb_true_iff. by rewrite Hc.
Qed.

Lemma drop_cons_ascii (n : nat) (c : ascii) (s : string) :
  PyStr.is_ascii s = true -> PyStr.drop (S n) (String c s) = PyStr.drop n s.
Proof. intros H. cbn [PyStr.drop]. by rewrite skip_continuation_ascii. Qed.

Lemma drop_append (a b : string) :
  PyStr.is_ascii (a +:+ b) = true ->
  PyStr.drop (String.length a) (a +:+ b) = b.
Proof.
  induction a as [|c a IH]; [done|]. rewrite append_cons.
  cbn [PyStr.is_ascii String.length]. intros [_ H]%andb_true_iff.
  rewrite drop_cons_ascii by done. by apply IH.
Qed.

Lemma drop_split (n : nat) : forall s,
  PyStr.is_ascii s = true ->
  (n <= String.length s)%nat ->
  exists a, s = a +:+ PyStr.drop n s /\ String.length a = n.
Proof.
  induction n as [|n IH]; intros s Hs Hn.
  - by exists "".
  - destruct s as [|c s]; cbn in Hn; [lia|].
    cbn [PyStr.is_ascii] in Hs. apply andb_true_iff in Hs as [_ Hs].
    destruct (IH s) as (a & Ha & Hlen); [done | lia |].
    exists (String c a). rewrite drop_cons_ascii by done.
    cbn [String.length]. rewrite append_cons, <- Ha. by rewrite Hlen.
Qed.

Lemma is_ascii_drop (n : nat) : forall s,
  PyStr.is_ascii s = true -> PyStr.is_ascii (PyStr.drop n s) = true.
Proof.
  induction n as [|n IH]; intros s Hs; [done|].
  destruct s as [|c s]; [done|].
  cbn [PyStr.is_ascii] in Hs. apply andb_true_iff in Hs as [_ Hs].
  rewrite drop_cons_ascii by done. by apply IH.
Qed.

Lemma is_ascii_lower (s : string) :
  PyStr.is_ascii s = true -> PyStr.is_ascii (PyStr.ascii_lower s) = true.
Proof.
  induction s as [|c s IH]; [done|]. cbn [PyStr.is_ascii PyStr.ascii_lower].
  intros [Hc Hs]%andb_true_iff. by rewrite lower_char_ascii, IH.
Qed.

Lemma ascii_lower_length (s : string) :
  String.length (PyStr.ascii_lower s) = String.length s.
Proof. induction s as [|c s IH]; cbn; [done | by rewrite IH]. Qed.

Lemma ascii_lower_drop (n : nat) : forall s,
  PyStr.is_ascii s = true ->
  PyStr.ascii_lower (PyStr.drop n s) = PyStr.drop n (PyStr.ascii_lower s).
Proof.
  induction n as [|n IH]; intros s Hs; [done|].
  destruct s as [|c s]; [done|].
  cbn [PyStr.is_ascii] in Hs. apply andb_true_iff in Hs as [_ Hs].
  cbn [PyStr.ascii_lower].
  rewrite !drop_cons_ascii by (done || by apply is_ascii_lower).
  by apply IH.
Qed.

(** On ASCII text [find] answers [-1] exactly when the pattern does not
    occur, and otherwise the index of the first occurrence. *)
Lemma find_spec (pat s : string) :
  PyStr.is_ascii s = true ->
  (PyStr.find pat s = -1 /\ PyStr.contains pat s = false)
  \/ (exists n : nat,
        PyStr.find pat s = Z.of_nat n
        /\ (n <= String.length s)%nat
        /\ PyStr.contains pat s = true
        /\ String.prefix pat (PyStr.drop n s) = true
        /\ forall m, (m < n)%nat -> String.prefix pat (PyStr.drop m s) = false).
Proof.
  induction s as [|c s IH]; intros Hs; cbn [PyStr.find PyStr.contains].
  - destruct (String.prefix pat "") eqn:E; [right | by left].
    exists 0%nat. repeat split; [done | done | lia].
  - cbn [PyStr.is_ascii] in Hs.
    apply andb_true_iff in Hs as [Hc%ascii_not_continuation Hs].
    destruct (String.prefix pat (String c s)) eqn:E.
    + right. exists 0%nat. repeat split; [cbn; lia | done | lia].
    + destruct (IH Hs) as [[-> Hcont] | (n & -> & Hn & Hcont & Hp & Hmin)].
      * left. by rewrite Z.eqb_refl.
      * right. exists (S n). rewrite Hc.
        destruct (Z.eqb_spec (Z.of_nat n) (-1)); [lia|].
        rewrite drop_cons_ascii by done.
        repeat split; [lia | cbn; lia | done | done |].
        intros [|m] Hm; [done|]. rewrite drop_cons_ascii by done.
        apply Hmin. lia.
Qed.

Lemma slice_from_nat (n : nat) (s : string) :
  PyStr.slice_from (Z.of_nat n) s = PyStr.drop n s.
Proof.
  unfold PyStr.slice_from.
  destruct (Z.ltb_spec (Z.of_nat n) 0); [lia|]. by rewrite Nat2Z.id.
Qed.

Lemma replace_removes (old new : ascii) (s : string) :
  old <> new ->
  PyStr.contains (String old "") (PyStr.replace old new s) = false.
Proof.
  intros Hne. induction s as [|c s IH]; [done|].
  cbn [PyStr.replace PyStr.contains]. rewrite IH.
  cbn [String.prefix].
  destruct (Ascii.eqb_spec c old) as [->|Hc];
    destruct (ascii_dec _ _); congruence.
Qed.

(** The depot path of a local path whose part after the drive is ASCII
    text, where [str.lower] is the ASCII lowering. *)
Lemma local_to_perforce_path_on_ascii (env : Env) (local_path : string) :
  PyStr.is_ascii (snd (splitdrive env local_path)) = true ->
  str_lower env (snd (splitdrive env local_path))
  = PyStr.ascii_lower (snd (splitdrive env local_path)) ->
  let tail := snd (splitdrive env local_path) in
  (PyStr.contains "potter" (PyStr.ascii_lower tail) = true ->
   exists before rest,
     tail = before +:+ rest
     /\ String.prefix "potter" (PyStr.ascii_lower rest) = true
     /\ (forall before' rest',
           tail = before' +:+ rest' ->
           String.prefix "potter" (PyStr.ascii_lower rest') = true ->
           (String.length before <= String.length before')%nat)
     /\ local_to_perforce_path env local_path
        = "//" +:+ PyStr.replace backslash "/" rest
     /\ PyStr.contains (String backslash "") (local_to_perforce_path env local_path)
        = false)
  /\ (PyStr.contains "potter" (PyStr.ascii_lower tail) = false ->
      local_to_perforce_path env local_path = local_path).
Proof.
  unfold local_to_perforce_path.
  destruct (splitdrive env local_path) as [drive tail]. cbn [snd].
  intros Hascii ->. pose proof (is_ascii_lower tail Hascii) as Hlow.
  destruct (find_spec "potter" (PyStr.ascii_lower tail) Hlow)
    as [[-> Hc] | (n & -> & Hn & Hc & Hp & Hmin)]; rewrite Hc.
  - split; [done | intros _; by rewrite Z.eqb_refl].
  - split; [intros _ | done].
    destruct (Z.eqb_spec (Z.of_nat n) (-1)); [lia|]. cbn [negb].
    rewrite slice_from_nat. rewrite ascii_lower_length in Hn.
    destruct (drop_split n tail Hascii Hn) as (before & Hsplit & Hlen).
    exists before, (PyStr.drop n tail). rewrite ascii_lower_drop by done.
    repeat split; [done | done | | ].
    + intros before' rest' Hsplit' Hp'.
      destruct (Nat.le_gt_cases (String.length before) (String.length before'))
        as [|Hlt]; [done|].
      rewrite Hlen in Hlt. specialize (Hmin _ Hlt).
      rewrite <- ascii_lower_drop in Hmin by done.
      rewrite Hsplit', drop_append in Hmin by (by rewrite <- Hsplit').
      congruence.
    + cbn [PyStr.contains String.append].
      change ("//" +:+ ?x) with (String "/" (String "/" x)).
      cbn [PyStr.contains String.prefix].
      destruct (ascii_dec _ _) as [|_]; [discriminate|].
      by apply replace_removes.
Qed.

End PathFacts.

(** ** The depot path *)

(** C8 fails on the code: the marker is searched in [tail.lower()] and
    the index found is used on [tail].  For a folder named U+0130 the
    lower-case text is one code point longer, so the slice starts one
    character late: for [C:\<U+0130>\Potter\a.ma] the marker is found,
    at index 4 of the lower-case text, while it stands at index 3 of
    the path, and the result is [//otter/a.ma], not [//Potter/a.ma]. *)
Theorem local_to_perforce_path_dotted_I :
  PyStr.contains "potter"
    (str_lower sample_env (snd (splitdrive sample_env sample_path_dotted_I)))
  = true
  /\ PyStr.find "potter"
       (str_lower sample_env (snd (splitdrive sample_env sample_path_dotted_I)))
     = 4
  /\ PyStr.find "Potter" (snd (splitdrive sample_env sample_path_dotted_I)) = 3
  /\ local_to_perforce_path sample_env sample_path_dotted_I = "//otter/a.ma"
  /\ "//" +:+ PyStr.replace backslash "/"
                (PyStr.slice_from 3 (snd (splitdrive sample_env sample_path_dotted_I)))
     = "//Potter/a.ma".
Proof. vm_compute. repeat split; reflexivity. Qed.

(** ** The orchestrator: a failed submit *)

Section OrchestratorFacts.
Variable env : Env.
Implicit Types (h evs : Trace) (msg : string).

Lemma submit_failure_fetch msg r :
  submit_failure msg (EvFetchChange r) -> r = Raises (P4Exception msg).
Proof. intros [H | (d & fs & H)]; congruence. Qed.

Lemma submit_failure_submit msg d fs r :
  submit_failure msg (EvSubmit d fs r) -> r = Raises (P4Exception msg).
Proof. intros [H | (d' & fs' & H)]; congruence. Qed.

(** Lines 91-101. *)
Lemma submit_or_revert_failure depot_path h evs out msg :
  submit_or_revert env depot_path h = (evs, out) ->
  Exists (submit_failure msg) evs ->
  exists pre failed,
    evs = pre ++ [failed;
                  EvLog ("Error submitting file: " +:+ depot_path +:+ " " +:+ msg);
                  EvRevert depot_path out]
    /\ submit_failure msg failed
    /\ Forall (fun ev => ev = EvFetchChange (Returns tt)) pre.
Proof.
  unfold submit_or_revert, try_except, on_P4Exception, log_append, emit,
    call, mbind, M_bind, bind.
  intros Hrun Hfail.
  destruct (p4_fetch_change env h) as [[]|e1] eqn:E1; cbn in Hrun.
  - destruct (p4_run_submit env _ _ _) as [[]|e2] eqn:E2; cbn in Hrun.
    + simplify_eq. scan_failure Hfail.
      all: try (apply submit_failure_fetch in Hfail
                || apply submit_failure_submit in Hfail); discriminate.
    + destruct e2; cbn in Hrun; simplify_eq; scan_failure Hfail.
      all: try (apply submit_failure_fetch in Hfail; discriminate).
      all: apply submit_failure_submit in Hfail as Heq; simplify_eq.
      exists [EvFetchChange (Returns ())]. eexists. split; [done|].
      split; [done | by repeat constructor].
  - destruct e1; cbn in Hrun; simplify_eq; scan_failure Hfail.
    all: apply submit_failure_fetch in Hfail as Heq; simplify_eq.
    exists []. eexists. split; [done|]. split; [done | constructor].
Qed.

Lemma no_failure_in evs msg :
  Forall (fun ev => ~ submit_failure msg ev) evs ->
  Exists (submit_failure msg) evs -> False.
Proof.
  rewrite Forall_forall, Exists_exists. intros Hall (ev & Hin & Hev).
  by apply (Hall ev Hin).
Qed.

Lemma unset_readonly_quiet file_path h evs out msg :
  unset_readonly env file_path h = (evs, out) ->
  Forall (fun ev => ~ submit_failure msg ev) evs.
Proof.
  unfold unset_readonly, call, mbind, M_bind, bind, mret, M_ret, ret.
  intros Hrun.
  destruct (os_stat_mode env h file_path) as [mode|e]; cbn in Hrun.
  - destruct (Z.land mode S_IWRITE =? 0); simplify_eq;
      repeat constructor; intros H; not_failure.
  - simplify_eq. repeat constructor; intros H; not_failure.
Qed.

(** Lines 55-103. *)
Lemma clean_checked_out_failure file_path depot_path h evs out msg :
  clean_checked_out env file_path depot_path h = (evs, out) ->
  Exists (submit_failure msg) evs ->
  exists pre lines failed,
    evs = pre ++ [failed;
                  EvLog ("Error submitting file: " +:+ depot_path +:+ " " +:+ msg);
                  EvRevert depot_path out]
    /\ submit_failure msg failed
    /\ In (EvRead file_path (Returns lines)) pre
    /\ snd (scrub lines) = true
    /\ In (EvWrite file_path (fst (scrub lines)) (Returns tt)) pre.
Proof.
  unfold clean_checked_out, mbind, M_bind, bind. intros Hrun Hfail.
  destruct (unset_readonly env file_path h) as [evs0 [[]|e0]] eqn:E0.
  2:{ simplify_eq. apply unset_readonly_quiet with (msg := msg) in E0.
      destruct (no_failure_in _ _ E0 Hfail). }
  apply unset_readonly_quiet with (msg := msg) in E0 as Hquiet.
  unfold call at 1 in Hrun.
  destruct (file_readlines env (h ++ evs0) file_path) as [lines|e1] eqn:E1.
  2:{ simplify_eq. apply Exists_app in Hfail as [Hfail | Hfail].
      - destruct (no_failure_in _ _ Hquiet Hfail).
      - scan_failure Hfail. }
  destruct (scrub lines) as [cleaned modified] eqn:Es.
  destruct modified.
  2:{ unfold log_append, emit in Hrun. simplify_eq.
      apply Exists_app in Hfail as [Hfail | Hfail].
      - destruct (no_failure_in _ _ Hquiet Hfail).
      - scan_failure Hfail. }
  unfold call at 1, log_append, emit in Hrun.
  destruct (file_writelines env _ file_path cleaned) as [[]|e2] eqn:E2.
  2:{ simplify_eq. apply Exists_app in Hfail as [Hfail | Hfail].
      - destruct (no_failure_in _ _ Hquiet Hfail).
      - scan_failure Hfail. }
  destruct (submit_or_revert env depot_path _) as [evs3 out3] eqn:E3.
  simplify_eq.
  assert (Exists (submit_failure msg) evs3) as Hfail3.
  { apply Exists_app in Hfail as [Hfail | Hfail].
    - destruct (no_failure_in _ _ Hquiet Hfail).
    - by scan_failure Hfail. }
  destruct (submit_or_revert_failure _ _ _ _ _ E3 Hfail3)
    as (pre & failed & -> & Hfailed & _).
  exists (evs0 ++ EvRead file_path (Returns lines)
              :: EvWrite file_path cleaned (Returns tt)
              :: EvLog ("Cleaned: " +:+ file_path) :: pre), lines, failed.
  rewrite Es. cbn [fst snd].
  split; [by rewrite <- !app_assoc|]. split; [done|].
  split; [apply in_or_app; right; by left|]. split; [done|].
  apply in_or_app; right; right; by left.
Qed.

(** Lines 39-103. *)
Lemma clean_ma_file_body_failure file_path h evs out msg :
  clean_ma_file_body env file_path h = (evs, out) ->
  Exists (submit_failure msg) evs ->
  let depot_path := local_to_perforce_path env file_path in
  exists pre lines failed,
    evs = pre ++ [failed;
                  EvLog ("Error submitting file: " +:+ depot_path +:+ " " +:+ msg);
                  EvRevert depot_path out]
    /\ submit_failure msg failed
    /\ In (EvRead file_path (Returns lines)) pre
    /\ snd (scrub lines) = true
    /\ In (EvWrite file_path (fst (scrub lines)) (Returns tt)) pre.
Proof.
  intros Hrun Hfail depot_path.
  unfold clean_ma_file_body, try_except, on_P4Exception, log_append, emit,
    mbind, M_bind, bind, mret, M_ret, ret in Hrun.
  fold depot_path in Hrun.
  unfold call at 1 in Hrun.
  destruct (p4_connect env h) as [[|]|e0]; cbn [negb] in Hrun;
    [| simplify_eq; scan_failure Hfail..].
  unfold call at 1 in Hrun.
  destruct (p4_run_edit env _ depot_path) as [[]|e1].
  2:{ destruct e1; simplify_eq; scan_failure Hfail. }
  destruct (clean_checked_out env file_path depot_path _) as [evs2 out2] eqn:E2.
  simplify_eq. cbn [app] in Hfail. scan_failure Hfail.
  destruct (clean_checked_out_failure _ _ _ _ _ _ E2 Hfail)
    as (pre & lines & failed & -> & Hfailed & Hread & Hmod & Hwrite).
  exists (EvConnect (Returns true)
            :: EvLog ("Checking out file: " +:+ depot_path)
            :: EvEdit depot_path (Returns tt) :: pre), lines, failed.
  split; [done|]. split; [done|].
  split; [by do 3 right|]. split; [done | by do 3 right].
Qed.

End OrchestratorFacts.

(** C9, as the source has it: when the run of [clean_ma_file] on a
    file holds a changelist creation or submit that raised a Perforce
    exception, the file had been read with [modified = true] and written
    back; the failure is followed at once by the logged error and by the
    revert of the depot path; and when the revert and the closing
    disconnect return, the call returns normally, so that the loop over
    the files goes on with the remaining ones. *)
Theorem submit_failure_reverted
    (env : Env) (file_path : string) (h evs : Trace) (out : Outcome unit)
    (msg : string) :
  clean_ma_file env file_path h = (evs, out) ->
  Exists (submit_failure msg) evs ->
  let depot_path := local_to_perforce_path env file_path in
  exists pre lines failed r_revert post,
    evs = pre ++ failed
              :: EvLog ("Error submitting file: " +:+ depot_path +:+ " " +:+ msg)
              :: EvRevert depot_path r_revert :: post
    /\ submit_failure msg failed
    /\ In (EvRead file_path (Returns lines)) pre
    /\ snd (scrub lines) = true
    /\ In (EvWrite file_path (fst (scrub lines)) (Returns tt)) pre
    /\ (r_revert = Returns tt ->
        exists r_disconnect,
          post = [EvDisconnect r_disconnect]
          /\ (r_disconnect = Returns tt ->
              out = Returns tt
              /\ forall raw rest count,
                   PyStr.strip raw = file_path ->
                   os_path_exists env h file_path = true ->
                   PyStr.endswith ".ma" file_path = true ->
                   process_files env (raw :: rest) count h
                   = (evs ++ fst (process_files env rest (count + 1) (h ++ evs)),
                      snd (process_files env rest (count + 1) (h ++ evs))))).
Proof.
  intros Hrun Hfail depot_path.
  assert (exists evs1 out1 r_disconnect,
            clean_ma_file_body env file_path h = (evs1, out1)
            /\ Exists (submit_failure msg) evs1
            /\ exists handled,
                 evs = evs1 ++ handled ++ [EvDisconnect r_disconnect]
                 /\ (out1 = Returns tt ->
                     handled = []
                     /\ (r_disconnect = Returns tt -> out = Returns tt)))
    as (evs1 & out1 & r_disconnect & Hbody & Hfail1 & handled & Hevs & Hout).
  { unfold clean_ma_file, try_finally, try_except, on_PermissionError in Hrun.
    destruct (clean_ma_file_body env file_path h) as [evs1 out1] eqn:Hbody.
    exists evs1, out1.
    destruct out1 as [[]|e1].
    - unfold call in Hrun. exists (p4_disconnect env (h ++ evs1)).
      assert (evs = evs1 ++ [EvDisconnect (p4_disconnect env (h ++ evs1))]) as ->
        by (destruct (p4_disconnect env (h ++ evs1)); by simplify_eq).
      split; [done|]. split.
      { apply Exists_app in Hfail as [|Hfail]; [done | scan_failure Hfail]. }
      exists []. split; [done|]. intros _. split; [done|].
      intros Hd. rewrite Hd in Hrun. by simplify_eq.
    - destruct e1 as [m|m|m]; unfold log_append, print, emit, call,
        mbind, M_bind, bind in Hrun; cbn in Hrun.
      all: match type of Hrun with
           | context [p4_disconnect ?e ?t] => exists (p4_disconnect e t);
               destruct (p4_disconnect e t)
           end; simplify_eq.
      all: split; [done|]; split;
        [ repeat (apply Exists_app in Hfail as [Hfail|Hfail]);
          first [done | by scan_failure Hfail]
        | ].
      all: first [ by exists []
                 | eexists [_; _]; split; [by rewrite <- app_assoc | done] ]. }
  destruct (clean_ma_file_body_failure env _ _ _ _ _ Hbody Hfail1)
    as (pre & lines & failed & -> & Hfailed & Hread & Hmod & Hwrite).
  fold depot_path in Hevs.
  exists pre, lines, failed, out1, (handled ++ [EvDisconnect r_disconnect]).
  split; [by rewrite Hevs, <- app_assoc|]. do 4 (split; [done|]).
  intros ->. destruct (Hout eq_refl) as [-> Hret].
  exists r_disconnect. split; [done|]. intros Hd.
  pose proof (Hret Hd) as ->.
  split; [done|]. intros raw rest count Hraw Hex Hma.
  cbn [process_files]. unfold mbind, M_bind, bind. rewrite Hraw, Hex, Hma.
  cbn [andb]. rewrite app_nil_r, Hrun. cbn [app].
  by destruct (process_files env rest (count + 1) (h ++ evs)).
Qed.

Lemma submit_failure_reverted_witness :
  exists pre failed r_revert post,
    fst sample_run
    = pre ++ failed
          :: EvLog ("Error submitting file: "
                    +:+ local_to_perforce_path sample_env sample_path
                    +:+ " " +:+ "submit failed")
          :: EvRevert (local_to_perforce_path sample_env sample_path) r_revert
          :: post.
Proof.
  destruct (submit_failure_reverted sample_env sample_path []
              (fst sample_run) (snd sample_run) "submit failed")
    as (pre & lines & failed & r_revert & post & Hevs & _).
  - apply surjective_pairing.
  - vm_compute.
    repeat first [ apply Exists_cons_hd; right; eexists _, _; reflexivity
                 | apply Exists_cons_tl ].
  - exists pre, failed, r_revert, post. exact Hevs.
Defined.

(** C9 as worded fails: the revert runs inside the [except] clause and
    the disconnect inside [finally], neither under a handler of its
    own.  When the submit fails and one of them raises in turn, the
    exception leaves [clean_ma_file] and ends the loop: the second file
    is never looked at. *)
Lemma submit_failure_escapes :
  Exists (submit_failure "submit failed")
    (fst (clean_ma_file sample_env_revert_raises sample_path []))
  /\ snd (clean_ma_file sample_env_revert_raises sample_path [])
     = Raises (P4Exception "revert failed")
  /\ process_files sample_env_revert_raises [sample_path; sample_path2] 0 []
     = (fst (clean_ma_file sample_env_revert_raises sample_path []),
        Raises (P4Exception "revert failed"))
  /\ snd (clean_ma_file sample_env_disconnect_raises sample_path [])
     = Raises (P4Exception "disconnect failed")
  /\ process_files sample_env_disconnect_raises [sample_path; sample_path2] 0 []
     = (fst (clean_ma_file sample_env_disconnect_raises sample_path []),
        Raises (P4Exception "disconnect failed")).
Proof.
  split.
  - vm_compute.
    repeat first [ apply Exists_cons_hd; right; eexists _, _; reflexivity
                 | apply Exists_cons_tl ].
  - repeat split; vm_compute; reflexivity.
Qed.

(** ** More about the scrub pass *)

Section ScrubMore.

Implicit Types (st : ScrubState) (line : string) (lines : list string).

Lemma scrub_step_skip_bounds st line :
  0 <= skip_lines st <= 10 -> 0 <= skip_lines (scrub_step st line) <= 10.
Proof.
  intros Hk. unfold scrub_step.
  repeat case_match; cbn [skip_lines]; try lia.
  all: match goal with H : (0 <? _) = true |- _ => apply Z.ltb_lt in H; lia end.
Qed.

Lemma scrub_run_skip_bounds lines : forall st,
  0 <= skip_lines st <= 10 -> 0 <= skip_lines (scrub_run st lines) <= 10.
Proof.
  induction lines as [|a l IH]; intros st Hk; [done|].
  rewrite scrub_run_cons. by apply IH, scrub_step_skip_bounds.
Qed.

Lemma existsb_false_Forall (f : string -> bool) lines :
  existsb f lines = false <-> Forall (fun x => f x = false) lines.
Proof.
  induction lines as [|a l IH]; cbn [existsb].
  - split; [constructor | done].
  - rewrite orb_false_iff, IH. split.
    + intros [Ha Hl]. by constructor.
    + intros H. by inversion H.
Qed.

(** A line without inside prefix and without marker. *)
Lemma plain_line_kept st line :
  inside_prefix line = false -> no_marker line = true ->
  cleaned_lines (scrub_step st line) = cleaned_lines st ++ [line].
Proof.
  intros Hp Hm. destruct (Z.lt_ge_cases 0 (skip_lines st)).
  - by rewrite scrub_step_exit.
  - rewrite scrub_step_idle; [done | by apply no_marker_not_start | lia].
Qed.

Lemma scrub_step_cleaned st line :
  cleaned_lines (scrub_step st line) = cleaned_lines st
  \/ cleaned_lines (scrub_step st line) = cleaned_lines st ++ [line].
Proof. unfold scrub_step. repeat case_match; cbn; auto. Qed.

Lemma scrub_run_keeps_plain lines : forall st,
  exists out,
    cleaned_lines (scrub_run st lines) = cleaned_lines st ++ out
    /\ List.filter (fun x => negb (inside_prefix x) && no_marker x) lines
       `sublist_of` out.
Proof.
  induction lines as [|a l IH]; intros st.
  - exists []. cbn. by rewrite app_nil_r.
  - rewrite scrub_run_cons.
    destruct (IH (scrub_step st a)) as (out & -> & Hsub). cbn [List.filter].
    destruct (negb (inside_prefix a) && no_marker a) eqn:Ea.
    + apply andb_true_iff in Ea as [Hp%negb_true_iff Hm].
      rewrite (plain_line_kept st a Hp Hm), <- app_assoc.
      exists (a :: out). split; [done | by apply sublist_skip].
    + destruct (scrub_step_cleaned st a) as [-> | ->].
      * by exists out.
      * rewrite <- app_assoc. exists (a :: out).
        split; [done | by apply sublist_cons].
Qed.

(** Potential: every dropped line is paid for by the counter, which a
    block start refills by at most 10. *)
Lemma scrub_run_budget lines : forall st,
  0 <= skip_lines st <= 10 ->
  Z.of_nat (length lines) + Z.of_nat (length (cleaned_lines st))
    + skip_lines (scrub_run st lines)
  <= Z.of_nat (length (cleaned_lines (scrub_run st lines))) + skip_lines st
     + 11 * Z.of_nat (length (List.filter is_block_start lines)).
Proof.
  induction lines as [|a l IH]; intros st Hk; [cbn; lia|].
  rewrite scrub_run_cons. cbn [List.filter length].
  specialize (IH (scrub_step st a) (scrub_step_skip_bounds st a Hk)).
  destruct (is_block_start a) eqn:Ea.
  - rewrite scrub_step_start in IH |- * by done.
    cbn [cleaned_lines skip_lines length] in *. lia.
  - unfold scrub_step in IH |- *. rewrite Ea in IH |- *.
    destruct (Z.ltb_spec 0 (skip_lines st));
      destruct (negb (inside_prefix a)); try destruct (no_marker a);
      cbn [cleaned_lines skip_lines] in *;
      rewrite ?length_app in *; cbn [length] in *; lia.
Qed.


Lemma scrub_app_at_zero l1 l2 :
  skip_lines (scrub_run scrub_init l1) = 0 ->
  scrub (l1 ++ l2)
  = (fst (scrub l1) ++ fst (scrub l2), snd (scrub l1) || snd (scrub l2)).
Proof.
  intros Hk. unfold scrub. rewrite scrub_run_app.
  destruct (scrub_run scrub_init l1) as [acc k m]. cbn in Hk. subst k.
  rewrite scrub_run_frame. by cbn.
Qed.

End ScrubMore.

(** X1: the skip counter stays between 0 and 10 throughout a pass. *)
Theorem scrub_skip_counter_bounds (lines : list string) :
  0 <= skip_lines (scrub_run scrub_init lines) <= 10.
Proof. apply scrub_run_skip_bounds. cbn. lia. Qed.

(** X2: [modified] is false exactly when the cleaned lines are the
    input: the flag tells whether the file content changes. *)
Theorem scrub_modified_iff_changed (lines : list string) :
  snd (scrub lines) = false <-> fst (scrub lines) = lines.
Proof.
  split.
  - unfold scrub at 1; cbn [snd]. rewrite scrub_run_modified. cbn [scrub_init modified orb].
    intros H%existsb_false_Forall. by rewrite scrub_clean.
  - intros H. rewrite scrub_clean; [done|]. rewrite <- H.
    unfold scrub; cbn [fst]. by apply scrub_run_no_start.
Qed.

Lemma scrub_modified_iff_changed_witness :
  fst (scrub [line_setAttr; line_other]) = [line_setAttr; line_other].
Proof.
  apply (scrub_modified_iff_changed [line_setAttr; line_other]).
  vm_compute; reflexivity.
Defined.

(** X3: a line that has no inside prefix and carries neither
    [createNode] nor [breed_gene] is never removed: these lines, in
    their order and number, are a subsequence of the cleaned lines. *)
Theorem scrub_keeps_plain_lines (lines : list string) :
  List.filter (fun x => negb (inside_prefix x) && no_marker x) lines
  `sublist_of` fst (scrub lines).
Proof.
  unfold scrub; cbn [fst].
  destruct (scrub_run_keeps_plain lines scrub_init) as (out & -> & Hsub).
  done.
Qed.

(** X4: at most 11 lines are removed per block-start line, the start
    line itself and ten more. *)
Theorem scrub_removal_budget (lines : list string) :
  (length lines
   <= length (fst (scrub lines)) + 11 * length (List.filter is_block_start lines))%nat.
Proof.
  pose proof (scrub_run_budget lines scrub_init ltac:(cbn; lia)) as H.
  pose proof (scrub_run_skip_bounds lines scrub_init ltac:(cbn; lia)) as Hk.
  unfold scrub; cbn [fst]. cbn [scrub_init cleaned_lines skip_lines length] in H.
  lia.
Qed.

(** X5: where a first part of the input leaves the counter at 0, the
    pass splits: the cleaned lines of the whole are those of the two
    parts scrubbed apart, and [modified] is the disjunction. *)
Theorem scrub_app (l1 l2 : list string) :
  skip_lines (scrub_run scrub_init l1) = 0 ->
  scrub (l1 ++ l2)
  = (fst (scrub l1) ++ fst (scrub l2), snd (scrub l1) || snd (scrub l2)).
Proof. apply scrub_app_at_zero. Qed.

Lemma scrub_app_witness :
  scrub ([line_start; line_setAttr; line_other] ++ [line_start; line_transform])
  = (fst (scrub [line_start; line_setAttr; line_other])
       ++ fst (scrub [line_start; line_transform]),
     snd (scrub [line_start; line_setAttr; line_other])
       || snd (scrub [line_start; line_transform])).
Proof.
  apply (scrub_app [line_start; line_setAttr; line_other]
           [line_start; line_transform]).
  vm_compute; reflexivity.
Defined.



(** ** More about the depot path and the read-only bit *)

Section PathMore.

Lemma lower_char_backslash (c : ascii) :
  Ascii.eqb (PyStr.lower_char c) backslash = Ascii.eqb c backslash.
Proof. destruct c as [[] [] [] [] [] [] [] []]; vm_compute; reflexivity. Qed.

Lemma lower_replace_backslash (s : string) :
  PyStr.ascii_lower (PyStr.replace backslash "/" s)
  = PyStr.replace backslash "/" (PyStr.ascii_lower s).
Proof.
  induction s as [|c s IH]; [done|].
  cbn [PyStr.replace PyStr.ascii_lower]. rewrite IH, lower_char_backslash.
  by destruct (Ascii.eqb c backslash).
Qed.

Lemma replace_append (old new : ascii) (a b : string) :
  PyStr.replace old new (a +:+ b)
  = PyStr.replace old new a +:+ PyStr.replace old new b.
Proof.
  induction a as [|c a IH]; [done|].
  rewrite append_cons. cbn [PyStr.replace]. by rewrite IH, append_cons.
Qed.

Lemma land_S_IWRITE (mode : Z) :
  (Z.land mode S_IWRITE =? 0) = negb (Z.testbit mode 7).
Proof.
  assert (Z.land mode S_IWRITE = if Z.testbit mode 7 then 128 else 0) as ->.
  { apply Z.bits_inj'. intros n Hn. rewrite Z.land_spec.
    change S_IWRITE with (2 ^ 7). rewrite Z.pow2_bits_eqb by lia.
    destruct (Z.eqb_spec 7 n) as [<-|Hne].
    - rewrite andb_true_r. destruct (Z.testbit mode 7); [done|].
      by rewrite Z.bits_0.
    - rewrite andb_false_r. destruct (Z.testbit mode 7); [|by rewrite Z.bits_0].
      change 128 with (2 ^ 7). rewrite Z.pow2_bits_eqb by lia.
      by destruct (Z.eqb_spec 7 n). }
  by destruct (Z.testbit mode 7).
Qed.

End PathMore.

(** X7: for a local path whose part after the drive is ASCII text
    (where [str.lower] is the ASCII lowering): whenever the marker is
    found, the depot path starts with [//potter] up to letter case, the
    path being rooted at the marker in the letter case of the input. *)
Theorem local_to_perforce_path_rooted (env : Env) (local_path : string) :
  PyStr.is_ascii (snd (splitdrive env local_path)) = true ->
  str_lower env (snd (splitdrive env local_path))
  = PyStr.ascii_lower (snd (splitdrive env local_path)) ->
  PyStr.contains "potter" (str_lower env (snd (splitdrive env local_path))) = true ->
  String.prefix "//potter"
    (PyStr.ascii_lower (local_to_perforce_path env local_path))
  = true.
Proof.
  unfold local_to_perforce_path.
  destruct (splitdrive env local_path) as [drive tail]. cbn [snd].
  intros Hascii ->. pose proof (is_ascii_lower tail Hascii) as Hlow.
  destruct (find_spec "potter" (PyStr.ascii_lower tail) Hlow)
    as [[_ Hc] | (n & -> & Hn & _ & Hp & _)]; [congruence|]. intros _.
  destruct (Z.eqb_spec (Z.of_nat n) (-1)); [lia|]. cbn [negb].
  rewrite slice_from_nat.
  change (PyStr.ascii_lower ("//" +:+ ?x)) with ("//" +:+ PyStr.ascii_lower x).
  rewrite lower_replace_backslash, ascii_lower_drop by done.
  apply prefix_split in Hp as [b ->]. rewrite replace_append.
  apply prefix_split. exists (PyStr.replace backslash "/" b).
  change (PyStr.replace backslash "/" "potter") with "potter". done.
Qed.

Lemma local_to_perforce_path_rooted_witness :
  String.prefix "//potter"
    (PyStr.ascii_lower (local_to_perforce_path sample_env sample_path))
  = true.
Proof.
  apply (local_to_perforce_path_rooted sample_env sample_path).
  - vm_compute; reflexivity.
  - vm_compute; reflexivity.
  - vm_compute; reflexivity.
Defined.

(** X19: for a local path whose part after the drive is ASCII text
    (where [str.lower] is the ASCII lowering): if that part holds
    [potter] in any letter case, the result is [//] followed by the
    path from the first occurrence of the marker on, with [/] for every
    backslash; if the marker is absent, the input is returned
    unchanged. *)
Theorem local_to_perforce_path_ascii (env : Env) (local_path : string) :
  PyStr.is_ascii (snd (splitdrive env local_path)) = true ->
  str_lower env (snd (splitdrive env local_path))
  = PyStr.ascii_lower (snd (splitdrive env local_path)) ->
  let tail := snd (splitdrive env local_path) in
  (PyStr.contains "potter" (PyStr.ascii_lower tail) = true ->
   exists before rest,
     tail = before +:+ rest
     /\ String.prefix "potter" (PyStr.ascii_lower rest) = true
     /\ (forall before' rest',
           tail = before' +:+ rest' ->
           String.prefix "potter" (PyStr.ascii_lower rest') = true ->
           (String.length before <= String.length before')%nat)
     /\ local_to_perforce_path env local_path
        = "//" +:+ PyStr.replace backslash "/" rest
     /\ PyStr.contains (String backslash "") (local_to_perforce_path env local_path)
        = false)
  /\ (PyStr.contains "potter" (PyStr.ascii_lower tail) = false ->
      local_to_perforce_path env local_path = local_path).
Proof. apply local_to_perforce_path_on_ascii. Qed.

Lemma local_to_perforce_path_ascii_witness :
  (exists before rest,
     snd (splitdrive sample_env sample_path) = before +:+ rest
     /\ local_to_perforce_path sample_env sample_path
        = "//" +:+ PyStr.replace backslash "/" rest)
  /\ local_to_perforce_path sample_env "C:\work\scene.ma" = "C:\work\scene.ma".
Proof.
  split.
  - destruct (local_to_perforce_path_ascii sample_env sample_path)
      as [Hfound _]; [vm_compute; reflexivity.. |].
    destruct Hfound as (before & rest & H1 & _ & _ & H2 & _);
      [vm_compute; reflexivity|].
    exists before, rest. split; [exact H1 | exact H2].
  - destruct (local_to_perforce_path_ascii sample_env "C:\work\scene.ma")
      as [_ Habsent]; [vm_compute; reflexivity.. |].
    apply Habsent. vm_compute; reflexivity.
Defined.

(** X8: [unset_readonly] changes the mode exactly when the owner-write
    bit (bit 7, [S_IWRITE]) of [st_mode] is clear, and then sets it to
    [S_IWRITE] alone; a writable file is left alone, and when [os.stat]
    raises nothing else is attempted. *)
Theorem unset_readonly_cases (env : Env) (file_path : string) (h : Trace) :
  (forall mode, os_stat_mode env h file_path = Returns mode ->
     Z.testbit mode 7 = true ->
     unset_readonly env file_path h
     = ([EvStat file_path (Returns mode)], Returns tt))
  /\ (forall mode, os_stat_mode env h file_path = Returns mode ->
        Z.testbit mode 7 = false ->
        exists r,
          r = os_chmod env (h ++ [EvStat file_path (Returns mode)]) file_path S_IWRITE
          /\ unset_readonly env file_path h
             = ([EvStat file_path (Returns mode); EvChmod file_path S_IWRITE r], r))
  /\ (forall e, os_stat_mode env h file_path = Raises e ->
        unset_readonly env file_path h = ([EvStat file_path (Raises e)], Raises e)).
Proof.
  unfold unset_readonly, call, mbind, M_bind, bind, mret, M_ret, ret.
  repeat split.
  - intros mode -> Hbit. by rewrite land_S_IWRITE, Hbit.
  - intros mode -> Hbit. rewrite land_S_IWRITE, Hbit. cbn [negb].
    eexists. split; [done|]. by destruct (os_chmod _ _ _ _).
  - by intros e ->.
Qed.

Lemma unset_readonly_cases_witness :
  exists r,
    unset_readonly sample_env sample_path []
    = ([EvStat sample_path (Returns 292); EvChmod sample_path S_IWRITE r], r).
Proof.
  destruct (unset_readonly_cases sample_env sample_path []) as (_ & H & _).
  destruct (H 292) as (r & _ & Hr).
  - reflexivity.
  - reflexivity.
  - exists r. exact Hr.
Defined.

(** ** The runs of [clean_ma_file], phase by phase *)

Section Runs.
Variable env : Env.
Implicit Types (h evs : Trace) (file_path depot_path : string).

Lemma unset_readonly_run file_path h evs out :
  unset_readonly env file_path h = (evs, out) ->
  (exists e, evs = [EvStat file_path (Raises e)] /\ out = Raises e)
  \/ (exists mode, evs = [EvStat file_path (Returns mode)] /\ out = Returns tt)
  \/ (exists mode,
        evs = [EvStat file_path (Returns mode); EvChmod file_path S_IWRITE out]).
Proof.
  unfold unset_readonly, call, mbind, M_bind, bind, mret, M_ret, ret.
  intros Hrun.
  destruct (os_stat_mode env h file_path) as [mode|e0]; cbn in Hrun.
  - destruct (Z.land mode S_IWRITE =? 0); simplify_eq.
    + right. right. exists mode. by destruct (os_chmod _ _ _ _).
    + right. left. by exists mode.
  - simplify_eq. left. by exists e0.
Qed.

Lemma submit_or_revert_run depot_path h evs out :
  submit_or_revert env depot_path h = (evs, out) ->
  (exists e, (forall m, e <> P4Exception m)
             /\ evs = [EvFetchChange (Raises e)] /\ out = Raises e)
  \/ (exists m,
        evs = [EvFetchChange (Raises (P4Exception m));
               EvLog ("Error submitting file: " +:+ depot_path +:+ " " +:+ m);
               EvRevert depot_path out])
  \/ (exists e, (forall m, e <> P4Exception m)
                /\ evs = [EvFetchChange (Returns tt);
                          EvSubmit "Removed Vaccine virus from file" [depot_path]
                            (Raises e)]
                /\ out = Raises e)
  \/ (exists m,
        evs = [EvFetchChange (Returns tt);
               EvSubmit "Removed Vaccine virus from file" [depot_path]
                 (Raises (P4Exception m));
               EvLog ("Error submitting file: " +:+ depot_path +:+ " " +:+ m);
               EvRevert depot_path out])
  \/ (evs = [EvFetchChange (Returns tt);
             EvSubmit "Removed Vaccine virus from file" [depot_path] (Returns tt);
             EvLog ("Submitted: " +:+ depot_path)]
      /\ out = Returns tt).
Proof.
  unfold submit_or_revert, try_except, on_P4Exception, log_append, emit,
    call, mbind, M_bind, bind.
  intros Hrun.
  destruct (p4_fetch_change env h) as [[]|e1]; cbn in Hrun.
  - destruct (p4_run_submit env _ _ _) as [[]|e2]; cbn in Hrun.
    + simplify_eq. by do 4 right.
    + destruct e2; cbn in Hrun; simplify_eq.
      * do 3 right. left. by eexists.
      * do 2 right. left. eexists. by repeat split.
      * do 2 right. left. eexists. by repeat split.
  - destruct e1; cbn in Hrun; simplify_eq.
    + right. left. by eexists.
    + left. eexists. by repeat split.
    + left. eexists. by repeat split.
Qed.

Lemma clean_checked_out_run file_path depot_path h evs out :
  clean_checked_out env file_path depot_path h = (evs, out) ->
  (exists e, evs = [EvStat file_path (Raises e)] /\ out = Raises e)
  \/ (exists mode e,
        evs = [EvStat file_path (Returns mode);
               EvChmod file_path S_IWRITE (Raises e)]
        /\ out = Raises e)
  \/ exists probes,
       ((exists mode, probes = [EvStat file_path (Returns mode)])
        \/ (exists mode,
              probes = [EvStat file_path (Returns mode);
                        EvChmod file_path S_IWRITE (Returns tt)]))
       /\ ((exists e,
              evs = probes ++ [EvRead file_path (Raises e)] /\ out = Raises e)
           \/ (exists lines,
                 snd (scrub lines) = false
                 /\ evs = probes ++ [EvRead file_path (Returns lines);
                                     EvLog ("No changes were made: " +:+ file_path)]
                 /\ out = Returns tt)
           \/ (exists lines e,
                 snd (scrub lines) = true
                 /\ evs = probes ++ [EvRead file_path (Returns lines);
                                     EvWrite file_path (fst (scrub lines)) (Raises e)]
                 /\ out = Raises e)
           \/ (exists lines evs_submit h',
                 snd (scrub lines) = true
                 /\ evs = probes ++ [EvRead file_path (Returns lines);
                                     EvWrite file_path (fst (scrub lines)) (Returns tt);
                                     EvLog ("Cleaned: " +:+ file_path)] ++ evs_submit
                 /\ submit_or_revert env depot_path h' = (evs_submit, out))).
Proof.
  unfold clean_checked_out, mbind, M_bind, bind. intros Hrun.
  destruct (unset_readonly env file_path h) as [probes out0] eqn:E0.
  apply unset_readonly_run in E0
    as [(e & -> & ->) | [(mode & -> & ->) | (mode & ->)]].
  { simplify_eq. left. by exists e. }
  2: destruct out0 as [[]|e0].
  3:{ cbn in Hrun. simplify_eq. right. left. by exists mode, e0. }
  1: right; right; exists [EvStat file_path (Returns mode)];
    (split; [left; by exists mode|]).
  2: right; right;
    exists [EvStat file_path (Returns mode); EvChmod file_path S_IWRITE (Returns tt)];
    (split; [right; by exists mode|]).
  all: unfold call at 1 in Hrun.
  all: destruct (file_readlines env _ file_path) as [lines|e1];
    [|simplify_eq; left; by eexists].
  all: right; destruct (scrub lines) as [cleaned modified] eqn:Es.
  all: destruct modified;
    [|unfold log_append, emit in Hrun; simplify_eq; left;
      exists lines; by rewrite Es].
  all: right; unfold call at 1, log_append, emit in Hrun.
  all: destruct (file_writelines env _ file_path cleaned) as [[]|e2];
    [|simplify_eq; left; exists lines, e2; by rewrite Es].
  all: right.
  all: destruct (submit_or_revert env depot_path _) as [evs3 out3] eqn:E3.
  all: simplify_eq; exists lines, evs3; eexists; rewrite Es; cbn [fst snd].
  all: split; [done|]; split; [done | exact E3].
Qed.

Lemma clean_ma_file_body_run file_path h evs out :
  clean_ma_file_body env file_path h = (evs, out) ->
  let depot_path := local_to_perforce_path env file_path in
  (exists e, evs = [EvConnect (Raises e)] /\ out = Raises e)
  \/ (evs = [EvConnect (Returns false); EvLog "Failed to connect to Perforce."]
      /\ out = Returns tt)
  \/ (exists e, (forall m, e <> P4Exception m)
                /\ evs = [EvConnect (Returns true);
                          EvLog ("Checking out file: " +:+ depot_path);
                          EvEdit depot_path (Raises e)]
                /\ out = Raises e)
  \/ (exists m,
        evs = [EvConnect (Returns true);
               EvLog ("Checking out file: " +:+ depot_path);
               EvEdit depot_path (Raises (P4Exception m));
               EvLog ("Error checking out file: " +:+ depot_path +:+ " " +:+ m)]
        /\ out = Returns tt)
  \/ (exists evs_clean h',
        evs = EvConnect (Returns true)
                :: EvLog ("Checking out file: " +:+ depot_path)
                :: EvEdit depot_path (Returns tt) :: evs_clean
        /\ clean_checked_out env file_path depot_path h' = (evs_clean, out)).
Proof.
  intros Hrun depot_path.
  unfold clean_ma_file_body, try_except, on_P4Exception, log_append, emit,
    mbind, M_bind, bind, mret, M_ret, ret in Hrun.
  fold depot_path in Hrun. unfold call at 1 in Hrun.
  destruct (p4_connect env h) as [[|]|e0]; cbn [negb] in Hrun.
  - unfold call at 1 in Hrun.
    destruct (p4_run_edit env _ depot_path) as [[]|e1].
    + destruct (clean_checked_out env file_path depot_path _)
        as [evs2 out2] eqn:E2.
      simplify_eq. do 4 right. exists evs2. eexists. split; [done | exact E2].
    + destruct e1; simplify_eq.
      * do 3 right. left. by eexists.
      * do 2 right. left. eexists. by repeat split.
      * do 2 right. left. eexists. by repeat split.
  - simplify_eq. right. by left.
  - simplify_eq. left. by eexists.
Qed.

(** The outer [try]: the handler of [PermissionError], then [finally]. *)
Lemma clean_ma_file_run file_path h evs out :
  clean_ma_file env file_path h = (evs, out) ->
  exists evs_body out_body handled r_disconnect,
    clean_ma_file_body env file_path h = (evs_body, out_body)
    /\ evs = evs_body ++ handled ++ [EvDisconnect r_disconnect]
    /\ ((exists m,
           out_body = Raises (PermissionError m)
           /\ handled
              = [EvLog ("Error: " +:+ m +:+ " - Could not modify " +:+ file_path);
                 EvPrint ("Error: " +:+ m +:+ " - Could not modify " +:+ file_path)]
           /\ out = match r_disconnect with
                    | Returns _ => Returns tt
                    | Raises e => Raises e
                    end)
        \/ ((forall m, out_body <> Raises (PermissionError m))
            /\ handled = []
            /\ out = match r_disconnect with
                     | Returns _ => out_body
                     | Raises e => Raises e
                     end)).
Proof.
  unfold clean_ma_file, try_finally, try_except, on_PermissionError.
  intros Hrun.
  destruct (clean_ma_file_body env file_path h) as [evs1 out1] eqn:Hbody.
  exists evs1, out1.
  destruct out1 as [[]|[m|m|m]];
    unfold log_append, print, emit, call, mbind, M_bind, bind in Hrun;
    cbn in Hrun.
  all: match type of Hrun with
       | context [p4_disconnect ?e ?t] =>
           first
             [ exists [], (p4_disconnect e t); (split; [done|]);
               destruct (p4_disconnect e t); simplify_eq;
               (split; [done|]); right; by repeat split
             | eexists [_; _], (p4_disconnect e t); (split; [done|]);
               destruct (p4_disconnect e t); simplify_eq;
               (split; [by rewrite <- app_assoc|]); left; by eexists ]
       end.
Qed.

End Runs.

Lemma trace_split_here (l : Trace) : l = [] ++ l.
Proof. reflexivity. Qed.

Lemma trace_split_later (e : Event) (l pre r : Trace) :
  l = pre ++ r -> e :: l = (e :: pre) ++ r.
Proof. by intros ->. Qed.

(** Split a run of [clean_ma_file] into its possible shapes. *)
Ltac explode_run Hrun :=
  let Hbody := fresh "Hbody" in
  let Hhandled := fresh "Hhandled" in
  let Hclean := fresh "Hclean" in
  let Hsubmit := fresh "Hsubmit" in
  let Hprobes := fresh "Hprobes" in
  apply clean_ma_file_run in Hrun
    as (evs_body & out_body & handled & r_disconnect & Hbody & -> & Hhandled);
  apply clean_ma_file_body_run in Hbody
    as [(e & -> & ->)
       |[(-> & ->)
       |[(e & Hne & -> & ->)
       |[(m & -> & ->)
       |(evs_clean & h' & -> & Hclean)]]]];
  [..
  | apply clean_checked_out_run in Hclean
      as [(e & -> & ->)
         |[(mode & e & -> & ->)
         |(probes & Hprobes &
           [(e & -> & ->)
           |[(lines & Hmod & -> & ->)
           |[(lines & e & Hmod & -> & ->)
           |(lines & evs_submit & h'' & Hmod & -> & Hsubmit)]]])]];
    [..
    | apply submit_or_revert_run in Hsubmit
        as [(e & Hne & -> & ->)
           |[(m & ->)
           |[(e & Hne & -> & ->)
           |[(m & ->)
           |(-> & ->)]]]] ];
    try (destruct Hprobes as [(mode & ->) | (mode & ->)]) ];
  destruct Hhandled as [(m_perm & Hperm & -> & Hout) | (Hnoperm & -> & Hout)];
  simplify_eq;
  try (exfalso; eapply Hnoperm; reflexivity);
  cbn [app] in *; rewrite <- ?app_assoc in *; cbn [app] in *.

(** Decide where an event sits in a literal trace. *)
Ltac in_trace H :=
  cbn [In] in H;
  repeat match goal with
         | H' : _ \/ _ |- _ => destruct H' as [H' | H']
         | H' : False |- _ => destruct H'
         | H' : @eq Event _ _ |- _ =>
             first [discriminate H' | progress simplify_eq]
         end.

(** Find the place of a literal segment in a literal trace. *)
Ltac split_trace :=
  first [ apply trace_split_here
        | apply trace_split_later; split_trace ].

(** No event of the given kind in a literal trace. *)
Ltac absent := let H := fresh in intros H; in_trace H.

(** X9: the file is only ever written once the checkout succeeded, and
    only with the cleaned lines of what was just read from it, when the
    pass reported [modified]. *)
Theorem file_written_only_scrubbed
    (env : Env) (file_path : string) (h evs : Trace) (out : Outcome unit)
    (p : string) (ls : list string) (r : Outcome unit) :
  clean_ma_file env file_path h = (evs, out) ->
  In (EvWrite p ls r) evs ->
  exists pre lines post,
    evs = pre ++ EvRead file_path (Returns lines)
              :: EvWrite file_path (fst (scrub lines)) r :: post
    /\ p = file_path /\ ls = fst (scrub lines) /\ snd (scrub lines) = true
    /\ In (EvEdit (local_to_perforce_path env file_path) (Returns tt)) pre.
Proof.
  intros Hrun Hin. explode_run Hrun.
  all: in_trace Hin.
  all: eexists _, lines, _.
  all: (split; [split_trace|]).
  all: repeat split; try done.
  all: cbn; auto.
Qed.

Lemma file_written_only_scrubbed_witness :
  exists pre lines post,
    fst (clean_ma_file sample_env_ok sample_path [])
    = pre ++ EvRead sample_path (Returns lines)
          :: EvWrite sample_path (fst (scrub lines)) (Returns tt) :: post.
Proof.
  destruct (file_written_only_scrubbed sample_env_ok sample_path []
              (fst (clean_ma_file sample_env_ok sample_path []))
              (snd (clean_ma_file sample_env_ok sample_path []))
              sample_path [line_other] (Returns tt))
    as (pre & lines & post & H & _).
  - apply surjective_pairing.
  - vm_compute. repeat first [left; reflexivity | right].
  - exists pre, lines, post. exact H.
Defined.

(** X10: when the file read carries no block start, nothing is written,
    submitted or reverted: the run logs that no changes were made and
    disconnects, leaving the file checked out. *)
Theorem unmodified_file_left_alone
    (env : Env) (file_path : string) (h evs : Trace) (out : Outcome unit)
    (p : string) (content : list string) :
  clean_ma_file env file_path h = (evs, out) ->
  In (EvRead p (Returns content)) evs ->
  snd (scrub content) = false ->
  exists pre r,
    evs = pre ++ [EvRead file_path (Returns content);
                  EvLog ("No changes were made: " +:+ file_path);
                  EvDisconnect r]
    /\ (forall q ls r', ~ In (EvWrite q ls r') evs)
    /\ (forall d fs r', ~ In (EvSubmit d fs r') evs)
    /\ (forall d r', ~ In (EvRevert d r') evs)
    /\ (r = Returns tt -> out = Returns tt).
Proof.
  intros Hrun Hin Hclean. explode_run Hrun.
  all: in_trace Hin; try congruence.
  all: eexists _, _; (split; [split_trace|]).
  all: repeat split; try (intros; absent).
  all: by intros ->.
Qed.

Lemma unmodified_file_left_alone_witness :
  exists pre r,
    fst (clean_ma_file sample_env_clean_file sample_path [])
    = pre ++ [EvRead sample_path (Returns [line_setAttr; line_other]);
              EvLog ("No changes were made: " +:+ sample_path);
              EvDisconnect r].
Proof.
  destruct (unmodified_file_left_alone sample_env_clean_file sample_path []
              (fst (clean_ma_file sample_env_clean_file sample_path []))
              (snd (clean_ma_file sample_env_clean_file sample_path []))
              sample_path [line_setAttr; line_other])
    as (pre & r & H & _).
  - apply surjective_pairing.
  - vm_compute. repeat first [left; reflexivity | right].
  - vm_compute; reflexivity.
  - exists pre, r. exact H.
Defined.

(** X11: when the checkout raises a Perforce exception, the error is
    logged and the file is not touched: the run is connect, the two log
    lines around the failed [edit], and disconnect. *)
Theorem checkout_failure_skips_file
    (env : Env) (file_path : string) (h evs : Trace) (out : Outcome unit)
    (d msg : string) :
  clean_ma_file env file_path h = (evs, out) ->
  In (EvEdit d (Raises (P4Exception msg))) evs ->
  let depot_path := local_to_perforce_path env file_path in
  exists r,
    evs = [EvConnect (Returns true);
           EvLog ("Checking out file: " +:+ depot_path);
           EvEdit depot_path (Raises (P4Exception msg));
           EvLog ("Error checking out file: " +:+ depot_path +:+ " " +:+ msg);
           EvDisconnect r]
    /\ d = depot_path
    /\ (r = Returns tt -> out = Returns tt).
Proof.
  intros Hrun Hin depot_path. subst depot_path. explode_run Hrun.
  all: in_trace Hin.
  all: try (exfalso; eapply Hne; reflexivity).
  eexists. split; [done|]. split; [done|]. by intros ->.
Qed.

Lemma checkout_failure_skips_file_witness :
  exists r,
    fst (clean_ma_file sample_env_checkout_fails sample_path [])
    = [EvConnect (Returns true);
       EvLog ("Checking out file: "
              +:+ local_to_perforce_path sample_env_checkout_fails sample_path);
       EvEdit (local_to_perforce_path sample_env_checkout_fails sample_path)
         (Raises (P4Exception "not on client"));
       EvLog ("Error checking out file: "
              +:+ local_to_perforce_path sample_env_checkout_fails sample_path
              +:+ " " +:+ "not on client");
       EvDisconnect r].
Proof.
  destruct (checkout_failure_skips_file sample_env_checkout_fails sample_path []
              (fst (clean_ma_file sample_env_checkout_fails sample_path []))
              (snd (clean_ma_file sample_env_checkout_fails sample_path []))
              "//Potter/Art/scene.ma" "not on client")
    as (r & H & _).
  - apply surjective_pairing.
  - vm_compute. repeat first [left; reflexivity | right].
  - exists r. exact H.
Defined.

(** X12: a submit that returns is the submit of the depot path of this
    file alone, under the fixed description, right after the file was
    written; it is logged, nothing is reverted, and the run ends with
    the disconnect. *)
Theorem submit_success_logged
    (env : Env) (file_path : string) (h evs : Trace) (out : Outcome unit)
    (d : string) (fs : list string) :
  clean_ma_file env file_path h = (evs, out) ->
  In (EvSubmit d fs (Returns tt)) evs ->
  let depot_path := local_to_perforce_path env file_path in
  exists pre lines r,
    evs = pre ++ [EvWrite file_path (fst (scrub lines)) (Returns tt);
                  EvLog ("Cleaned: " +:+ file_path);
                  EvFetchChange (Returns tt);
                  EvSubmit "Removed Vaccine virus from file" [depot_path]
                    (Returns tt);
                  EvLog ("Submitted: " +:+ depot_path);
                  EvDisconnect r]
    /\ d = "Removed Vaccine virus from file" /\ fs = [depot_path]
    /\ (forall d' r', ~ In (EvRevert d' r') evs)
    /\ (r = Returns tt -> out = Returns tt).
Proof.
  intros Hrun Hin depot_path. subst depot_path. explode_run Hrun.
  all: in_trace Hin.
  all: eexists _, lines, _; (split; [split_trace|]).
  all: repeat split; try (intros; absent).
  all: by intros ->.
Qed.

Lemma submit_success_logged_witness :
  exists pre lines r,
    fst (clean_ma_file sample_env_ok sample_path [])
    = pre ++ [EvWrite sample_path (fst (scrub lines)) (Returns tt);
              EvLog ("Cleaned: " +:+ sample_path);
              EvFetchChange (Returns tt);
              EvSubmit "Removed Vaccine virus from file"
                [local_to_perforce_path sample_env_ok sample_path] (Returns tt);
              EvLog ("Submitted: " +:+ local_to_perforce_path sample_env_ok sample_path);
              EvDisconnect r].
Proof.
  destruct (submit_success_logged sample_env_ok sample_path []
              (fst (clean_ma_file sample_env_ok sample_path []))
              (snd (clean_ma_file sample_env_ok sample_path []))
              "Removed Vaccine virus from file" ["//Potter/Art/scene.ma"])
    as (pre & lines & r & H & _).
  - apply surjective_pairing.
  - vm_compute. repeat first [left; reflexivity | right].
  - exists pre, lines, r. exact H.
Defined.

Lemma clean_ma_file_session
    (env : Env) (file_path : string) (h evs : Trace) (out : Outcome unit) :
  clean_ma_file env file_path h = (evs, out) ->
  exists r_connect mid r_disconnect,
    evs = EvConnect r_connect :: mid ++ [EvDisconnect r_disconnect]
    /\ Forall (fun ev => is_connect ev = false
                         /\ forall r, ev <> EvDisconnect r) mid
    /\ (forall e, r_disconnect = Raises e -> out = Raises e).
Proof.
  intros Hrun. explode_run Hrun.
  all: eexists _, _, _; (split; [f_equal; split_trace|]).
  all: split; [|by intros ? ->].
  all: repeat first [ apply List.Forall_nil
                    | apply List.Forall_cons; [split; [reflexivity | by intros ?]|] ].
Qed.

(** X13: every run is one Perforce session: it opens with the connect,
    closes with the disconnect whatever happened in between, holds no
    other connect or disconnect, and an exception of the disconnect is
    the outcome of the call. *)
Theorem session_bracketed
    (env : Env) (file_path : string) (h evs : Trace) (out : Outcome unit) :
  clean_ma_file env file_path h = (evs, out) ->
  exists r_connect mid r_disconnect,
    evs = EvConnect r_connect :: mid ++ [EvDisconnect r_disconnect]
    /\ Forall (fun ev => is_connect ev = false
                         /\ forall r, ev <> EvDisconnect r) mid
    /\ (forall e, r_disconnect = Raises e -> out = Raises e).
Proof. apply clean_ma_file_session. Qed.

Lemma session_bracketed_witness :
  exists r_connect mid r_disconnect,
    fst (clean_ma_file sample_env_read_denied sample_path [])
    = EvConnect r_connect :: mid ++ [EvDisconnect r_disconnect].
Proof.
  destruct (session_bracketed sample_env_read_denied sample_path []
              (fst (clean_ma_file sample_env_read_denied sample_path []))
              (snd (clean_ma_file sample_env_read_denied sample_path [])))
    as (rc & mid & rd & H & _).
  - apply surjective_pairing.
  - exists rc, mid, rd. exact H.
Defined.

(** X14: a [PermissionError] raised by any call before the disconnect
    ends the work on the file there: the error is logged and printed,
    the checkout is not reverted, and the call returns normally when
    the disconnect does. *)
Theorem permission_error_handled
    (env : Env) (file_path : string) (h evs : Trace) (out : Outcome unit)
    (ev : Event) (msg : string) :
  clean_ma_file env file_path h = (evs, out) ->
  In ev evs ->
  raised ev = Some (PermissionError msg) ->
  (forall r, ev <> EvDisconnect r) ->
  exists pre r,
    evs = pre ++ [ev;
                  EvLog ("Error: " +:+ msg +:+ " - Could not modify " +:+ file_path);
                  EvPrint ("Error: " +:+ msg +:+ " - Could not modify " +:+ file_path);
                  EvDisconnect r]
    /\ (r = Returns tt -> out = Returns tt).
Proof.
  intros Hrun Hin Hraised Hnd. explode_run Hrun.
  all: in_trace Hin; cbn [raised] in Hraised; simplify_eq.
  all: try (exfalso; eapply Hnd; reflexivity).
  all: try (exfalso; eapply Hnoperm; reflexivity).
  all: try (exfalso; eapply Hne; reflexivity).
  all: try (repeat case_match; simplify_eq;
            exfalso; first [ eapply Hnoperm; reflexivity
                           | eapply Hnd; reflexivity ]).
  all: eexists _, _; (split; [split_trace|]).
  all: by intros ->.
Qed.

Lemma permission_error_handled_witness :
  snd (clean_ma_file sample_env_read_denied sample_path []) = Returns tt.
Proof.
  destruct (permission_error_handled sample_env_read_denied sample_path []
              (fst (clean_ma_file sample_env_read_denied sample_path []))
              (snd (clean_ma_file sample_env_read_denied sample_path []))
              (EvRead sample_path (Raises (PermissionError "denied"))) "denied")
    as (pre & r & Hevs & Hout).
  - apply surjective_pairing.
  - vm_compute. repeat first [left; reflexivity | right].
  - reflexivity.
  - intros r; discriminate.
  - apply Hout.
    assert (last (fst (clean_ma_file sample_env_read_denied sample_path []))
            = Some (EvDisconnect r)) as Hlast
      by (rewrite Hevs, last_app; reflexivity).
    vm_compute in Hlast. congruence.
Defined.

(** ** The loop over the files *)

Section Loop.
Variable env : Env.

Lemma clean_ma_file_one_connect (file_path : string) (h evs : Trace)
    (out : Outcome unit) :
  clean_ma_file env file_path h = (evs, out) ->
  length (List.filter is_connect evs) = 1%nat.
Proof.
  intros (rc & mid & rd & -> & Hmid & _)%clean_ma_file_session.
  cbn [List.filter is_connect length]. f_equal.
  rewrite List.filter_app. cbn [List.filter is_connect]. rewrite app_nil_r.
  induction Hmid as [|ev mid [Hev _] _ IH]; [done|].
  cbn [List.filter]. by rewrite Hev.
Qed.

Lemma process_files_invalid (paths : list string) : forall n h,
  Forall (fun p => PyStr.endswith ".ma" (PyStr.strip p) = false
                   \/ forall h', os_path_exists env h' (PyStr.strip p) = false)
    paths ->
  process_files env paths n h
  = (List.flat_map
       (fun p => [EvLog ("Invalid path: " +:+ PyStr.strip p);
                  EvPrint ("Invalid path: " +:+ PyStr.strip p)]) paths,
     Returns n).
Proof.
  induction paths as [|p rest IH]; intros n h Hall; [done|].
  inversion Hall as [|? ? Hp Hrest]; subst.
  cbn [process_files List.flat_map].
  unfold mbind, M_bind, bind, log_append, print, emit.
  assert (os_path_exists env h (PyStr.strip p)
          && PyStr.endswith ".ma" (PyStr.strip p) = false) as ->.
  { destruct Hp as [-> | ->]; [apply andb_false_r | done]. }
  cbn [app]. by rewrite (IH n _ Hrest).
Qed.

Lemma process_files_count (paths : list string) : forall n h evs n',
  process_files env paths n h = (evs, Returns n') ->
  n' = n + Z.of_nat (length (List.filter is_connect evs))
  /\ n' <= n + Z.of_nat (length paths).
Proof.
  induction paths as [|p rest IH]; intros n h evs n' Hrun.
  - cbn [process_files] in Hrun. unfold mret, M_ret, ret in Hrun.
    simplify_eq. cbn [List.filter length]. lia.
  - cbn [process_files] in Hrun.
    unfold mbind, M_bind, bind, log_append, print, emit in Hrun.
    destruct (os_path_exists env h (PyStr.strip p)
              && PyStr.endswith ".ma" (PyStr.strip p)).
    + destruct (clean_ma_file env (PyStr.strip p) _) as [evs1 [[]|e1]] eqn:E1;
        [|simplify_eq].
      destruct (process_files env rest (n + 1) _) as [evs2 r2] eqn:E2.
      simplify_eq. apply IH in E2 as [-> Hle].
      apply clean_ma_file_one_connect in E1.
      cbn [app length]. rewrite List.filter_app, length_app, E1. lia.
    + cbn [app] in Hrun.
      destruct (process_files env rest n _) as [evs2 r2] eqn:E2.
      simplify_eq. apply IH in E2 as [-> Hle].
      cbn [List.filter is_connect app length]. lia.
Qed.

Lemma process_files_count_valid (paths : list string) : forall n h evs n',
  process_files env paths n h = (evs, Returns n') ->
  (forall p h', In p paths ->
     os_path_exists env h' (PyStr.strip p) = os_path_exists env h (PyStr.strip p)) ->
  n' = n + Z.of_nat
             (length (List.filter
                        (fun p => os_path_exists env h (PyStr.strip p)
                                  && PyStr.endswith ".ma" (PyStr.strip p))
                        paths)).
Proof.
  induction paths as [|p rest IH]; intros n h evs n' Hrun Hstable.
  - cbn [process_files] in Hrun. unfold mret, M_ret, ret in Hrun.
    simplify_eq. cbn [List.filter length]. lia.
  - assert (forall h2,
              List.filter (fun q => os_path_exists env h2 (PyStr.strip q)
                                    && PyStr.endswith ".ma" (PyStr.strip q)) rest
              = List.filter (fun q => os_path_exists env h (PyStr.strip q)
                                      && PyStr.endswith ".ma" (PyStr.strip q)) rest)
      as Hfilter.
    { intros h2. apply List.filter_ext_in. intros q Hq.
      by rewrite (Hstable q h2) by (by right). }
    assert (forall h2 q h', In q rest ->
              os_path_exists env h' (PyStr.strip q)
              = os_path_exists env h2 (PyStr.strip q)) as Hstable'.
    { intros h2 q h' Hq.
      by rewrite (Hstable q h'), (Hstable q h2) by (by right). }
    cbn [process_files] in Hrun.
    unfold mbind, M_bind, bind, log_append, print, emit in Hrun.
    cbn [List.filter].
    destruct (os_path_exists env h (PyStr.strip p)
              && PyStr.endswith ".ma" (PyStr.strip p)).
    + destruct (clean_ma_file env (PyStr.strip p) _) as [evs1 [[]|e1]];
        [|simplify_eq].
      destruct (process_files env rest (n + 1) _) as [evs2 r2] eqn:E2.
      simplify_eq. apply IH in E2; [|by apply Hstable'].
      rewrite Hfilter in E2. cbn [length]. lia.
    + cbn [app] in Hrun.
      destruct (process_files env rest n _) as [evs2 r2] eqn:E2.
      simplify_eq. apply IH in E2; [|by apply Hstable'].
      by rewrite Hfilter in E2.
Qed.

End Loop.

(** X15: a path that does not end in [.ma] after stripping, or that
    does not exist, is never handed to Perforce: a list of such paths
    only produces the [Invalid path] log and print lines, and the count
    is unchanged. *)
Theorem invalid_paths_never_reach_perforce
    (env : Env) (paths : list string) (n : Z) (h : Trace) :
  Forall (fun p => PyStr.endswith ".ma" (PyStr.strip p) = false
                   \/ forall h', os_path_exists env h' (PyStr.strip p) = false)
    paths ->
  process_files env paths n h
  = (List.flat_map
       (fun p => [EvLog ("Invalid path: " +:+ PyStr.strip p);
                  EvPrint ("Invalid path: " +:+ PyStr.strip p)]) paths,
     Returns n).
Proof. apply process_files_invalid. Qed.

Lemma invalid_paths_never_reach_perforce_witness :
  process_files sample_env_ok ["notes.txt"; "  scene.mb  "] 0 []
  = ([EvLog "Invalid path: notes.txt"; EvPrint "Invalid path: notes.txt";
      EvLog "Invalid path: scene.mb"; EvPrint "Invalid path: scene.mb"],
     Returns 0).
Proof.
  apply (invalid_paths_never_reach_perforce sample_env_ok
           ["notes.txt"; "  scene.mb  "] 0 []).
  repeat constructor.
Defined.

(** X16: when the loop returns, the count it reports has grown by the
    number of Perforce sessions opened, whether or not the files were
    changed, and by at most the number of paths; where the existence of
    the listed paths does not change during the batch, that number is
    the number of paths that exist and end in [.ma] after stripping:
    one session per such path. *)
Theorem processed_count_counts_sessions
    (env : Env) (paths : list string) (n n' : Z) (h evs : Trace) :
  process_files env paths n h = (evs, Returns n') ->
  n' = n + Z.of_nat (length (List.filter is_connect evs))
  /\ n' <= n + Z.of_nat (length paths)
  /\ ((forall p h', In p paths ->
         os_path_exists env h' (PyStr.strip p)
         = os_path_exists env h (PyStr.strip p)) ->
      n' = n + Z.of_nat
                 (length (List.filter
                            (fun p => os_path_exists env h (PyStr.strip p)
                                      && PyStr.endswith ".ma" (PyStr.strip p))
                            paths))).
Proof.
  intros Hrun.
  destruct (process_files_count env paths n h evs n' Hrun) as [Hc Hle].
  split; [done|]. split; [done|].
  by apply process_files_count_valid with (evs := evs).
Qed.

Lemma processed_count_counts_sessions_witness :
  2 = 0 + Z.of_nat (length (List.filter is_connect
                              (fst (process_files sample_env_clean_file
                                      [sample_path; "notes.txt"; sample_path2] 0 []))))
  /\ 2 = 0 + Z.of_nat
               (length (List.filter
                          (fun p => os_path_exists sample_env_clean_file []
                                      (PyStr.strip p)
                                    && PyStr.endswith ".ma" (PyStr.strip p))
                          [sample_path; "notes.txt"; sample_path2])).
Proof.
  destruct (processed_count_counts_sessions sample_env_clean_file
              [sample_path; "notes.txt"; sample_path2] 0 2 []
              (fst (process_files sample_env_clean_file
                      [sample_path; "notes.txt"; sample_path2] 0 [])))
    as (Hsessions & _ & Hvalid).
  - vm_compute; reflexivity.
  - split; [exact Hsessions|]. apply Hvalid. intros p h' _. reflexivity.
Defined.

(** ** Facts about [strip], [split] and [join] *)

Section TextFacts.

Implicit Types (s p x : string) (c sep : ascii) (l : list string).

Lemma lstrip_fixed_or_shorter s :
  PyStr.lstrip s = s \/ (String.length (PyStr.lstrip s) < String.length s)%nat.
Proof.
  induction s as [|c s IH]; [by left|]. cbn [PyStr.lstrip].
  destruct (PyStr.is_space c); [right | by left].
  cbn [String.length]. destruct IH as [-> | ?]; lia.
Qed.

Lemma rstrip_fixed_or_shorter s :
  PyStr.rstrip s = s \/ (String.length (PyStr.rstrip s) < String.length s)%nat.
Proof.
  induction s as [|c s IH]; [by left|]. cbn [PyStr.rstrip].
  destruct IH as [-> | Hlt].
  - destruct s; [|by left].
    destruct (PyStr.is_space c); [right; cbn; lia | by left].
  - right. destruct (PyStr.rstrip s) as [|d r]; cbn [String.length] in *.
    + destruct (PyStr.is_space c); cbn [String.length]; lia.
    + lia.
Qed.

Lemma strip_fixed p :
  PyStr.strip p = p -> PyStr.lstrip p = p /\ PyStr.rstrip p = p.
Proof.
  unfold PyStr.strip. intros H.
  destruct (lstrip_fixed_or_shorter p) as [Hl | Hl].
  - rewrite Hl in H. done.
  - exfalso. destruct (rstrip_fixed_or_shorter (PyStr.lstrip p)) as [Hr | Hr].
    + rewrite Hr in H. rewrite H in Hl. lia.
    + rewrite H in Hr. lia.
Qed.

Lemma lstrip_fixed_head c s :
  PyStr.lstrip (String c s) = String c s -> PyStr.is_space c = false.
Proof.
  cbn [PyStr.lstrip]. destruct (PyStr.is_space c); [|done]. intros H.
  destruct (lstrip_fixed_or_shorter s) as [Hs | Hs].
  - rewrite Hs in H. apply (f_equal String.length) in H. cbn in H. lia.
  - rewrite H in Hs. cbn in Hs. lia.
Qed.

Lemma lstrip_append p x :
  PyStr.lstrip p = p -> p <> "" -> PyStr.lstrip (p +:+ x) = p +:+ x.
Proof.
  destruct p as [|c p]; [done|]. intros H%lstrip_fixed_head _.
  rewrite append_cons. cbn [PyStr.lstrip]. by rewrite H.
Qed.

Lemma append_nonempty_r x p : p <> "" -> x +:+ p <> "".
Proof. destruct x; [done | by rewrite append_cons]. Qed.

Lemma rstrip_append x p :
  PyStr.rstrip p = p -> p <> "" -> PyStr.rstrip (x +:+ p) = x +:+ p.
Proof.
  intros Hp Hne. induction x as [|c x IH]; [done|].
  rewrite append_cons. cbn [PyStr.rstrip]. rewrite IH.
  pose proof (append_nonempty_r x p Hne). by destruct (x +:+ p).
Qed.

Lemma lstrip_idempotent s : PyStr.lstrip (PyStr.lstrip s) = PyStr.lstrip s.
Proof.
  induction s as [|c s IH]; [done|]. cbn [PyStr.lstrip].
  destruct (PyStr.is_space c) eqn:Ec; [done|]. cbn [PyStr.lstrip]. by rewrite Ec.
Qed.

Lemma rstrip_idempotent s : PyStr.rstrip (PyStr.rstrip s) = PyStr.rstrip s.
Proof.
  induction s as [|c s IH]; [done|]. cbn [PyStr.rstrip].
  destruct (PyStr.rstrip s) as [|d r] eqn:Er.
  - destruct (PyStr.is_space c) eqn:Ec; [done|].
    cbn [PyStr.rstrip]. by rewrite Ec.
  - cbn [PyStr.rstrip]. cbn [PyStr.rstrip] in IH. by rewrite IH.
Qed.

Lemma lstrip_rstrip s :
  PyStr.lstrip s = s -> PyStr.lstrip (PyStr.rstrip s) = PyStr.rstrip s.
Proof.
  destruct s as [|c s]; [done|]. intros Hc%lstrip_fixed_head.
  cbn [PyStr.rstrip]. rewrite Hc.
  destruct (PyStr.rstrip s); cbn [PyStr.lstrip]; by rewrite Hc.
Qed.

Lemma strip_stripped s :
  PyStr.lstrip (PyStr.strip s) = PyStr.strip s
  /\ PyStr.rstrip (PyStr.strip s) = PyStr.strip s.
Proof.
  unfold PyStr.strip. split.
  - apply lstrip_rstrip, lstrip_idempotent.
  - apply rstrip_idempotent.
Qed.

Lemma split_nonempty sep s : PyStr.split sep s <> [].
Proof.
  destruct s as [|c s]; [done|]. cbn [PyStr.split].
  destruct (Ascii.eqb c sep); [done|]. by destruct (PyStr.split sep s).
Qed.

Lemma split_single_empty sep s : PyStr.split sep s = [""] -> s = "".
Proof.
  destruct s as [|c s]; [done|]. cbn [PyStr.split].
  destruct (Ascii.eqb c sep).
  - intros [= H]. by destruct (split_nonempty sep s).
  - by destruct (PyStr.split sep s).
Qed.

Lemma contains_char sep c s :
  PyStr.contains (String sep "") (String c s)
  = Ascii.eqb c sep || PyStr.contains (String sep "") s.
Proof.
  cbn [PyStr.contains String.prefix]. rewrite prefix_nil.
  destruct (Ascii.eqb_spec c sep) as [->|Hne].
  - by destruct (ascii_dec sep sep).
  - destruct (ascii_dec sep c); [congruence | done].
Qed.

Lemma split_without_sep sep p :
  PyStr.contains (String sep "") p = false -> PyStr.split sep p = [p].
Proof.
  induction p as [|c p IH]; [done|]. rewrite contains_char.
  intros [Hc Hp]%orb_false_iff. cbn [PyStr.split]. by rewrite Hc, IH.
Qed.

Lemma split_append sep a b :
  PyStr.split sep (a +:+ String sep b) = PyStr.split sep a ++ PyStr.split sep b.
Proof.
  induction a as [|c a IH].
  - rewrite append_nil_l. cbn [PyStr.split]. by rewrite Ascii.eqb_refl.
  - rewrite append_cons. cbn [PyStr.split]. rewrite IH.
    destruct (Ascii.eqb c sep); [done|].
    pose proof (split_nonempty sep a). by destruct (PyStr.split sep a).
Qed.

Lemma join_cons (glue : string) p q l :
  PyStr.join glue (p :: q :: l) = p +:+ glue +:+ PyStr.join glue (q :: l).
Proof. reflexivity. Qed.

Lemma split_join sep l :
  l <> [] ->
  Forall (fun p => PyStr.contains (String sep "") p = false) l ->
  PyStr.split sep (PyStr.join (String sep "") l) = l.
Proof.
  intros Hne Hall. induction Hall as [|p l Hp Hl IH]; [done|].
  destruct l as [|q l]; [by apply split_without_sep|].
  rewrite join_cons.
  change (p +:+ String sep "" +:+ ?x) with (p +:+ String sep x).
  rewrite split_append, IH by done. by rewrite split_without_sep.
Qed.

Lemma join_stripped l :
  l <> [] ->
  Forall (fun p => p <> "" /\ PyStr.strip p = p) l ->
  PyStr.join (String PyStr.newline "") l <> ""
  /\ PyStr.lstrip (PyStr.join (String PyStr.newline "") l)
     = PyStr.join (String PyStr.newline "") l
  /\ PyStr.rstrip (PyStr.join (String PyStr.newline "") l)
     = PyStr.join (String PyStr.newline "") l.
Proof.
  intros Hne Hall. induction Hall as [|p l [Hp Hs] Hl IH]; [done|].
  apply strip_fixed in Hs as [Hpl Hpr].
  destruct l as [|q l]; [done|].
  destruct IH as (Hj & _ & Hjr); [done|]. rewrite join_cons.
  split; [|split].
  - by destruct p.
  - by apply lstrip_append.
  - rewrite <- append_assoc. by apply rstrip_append.
Qed.

End TextFacts.

(** X17: the paths read from the box are never an empty list, and the
    test of line 203 holds exactly when the box is blank (empty or
    white space only). *)
Theorem blank_box_has_no_paths (pasted_text : string) :
  pasted_file_paths pasted_text <> []
  /\ (no_valid_paths (pasted_file_paths pasted_text) = true
      <-> PyStr.strip pasted_text = "").
Proof.
  unfold pasted_file_paths. split; [apply split_nonempty|]. split.
  - pose proof (split_nonempty PyStr.newline (PyStr.strip pasted_text)) as Hne.
    destruct (PyStr.split _ _) as [|p [|q l]] eqn:E; cbn [no_valid_paths]; try done.
    intros ->%String.eqb_eq. by apply split_single_empty in E.
  - by intros ->.
Qed.

Lemma blank_box_has_no_paths_witness :
  no_valid_paths (pasted_file_paths "   ") = true.
Proof.
  apply (blank_box_has_no_paths "   "). vm_compute; reflexivity.
Defined.

(** X18: paths chosen in the dialog come back from the box as they
    went in.  For a non-empty choice of paths that are not empty, have
    no white space at either end and hold no line feed, the paths read
    from the new text are the paths read from the old text, if it was
    not blank, followed by the chosen ones. *)
Theorem dialog_paths_round_trip (text : string) (file_paths : list string) :
  file_paths <> [] ->
  Forall (fun p => p <> "" /\ PyStr.strip p = p
                   /\ PyStr.contains (String PyStr.newline "") p = false)
    file_paths ->
  pasted_file_paths (open_file_dialog text file_paths)
  = (if String.eqb (PyStr.strip text) "" then [] else pasted_file_paths text)
      ++ file_paths.
Proof.
  intros Hne Hall.
  assert (Forall (fun p => p <> "" /\ PyStr.strip p = p) file_paths) as Hstripped
    by (eapply Forall_impl; [exact Hall | by intros ? (? & ? & ?)]).
  assert (Forall (fun p => PyStr.contains (String PyStr.newline "") p = false)
            file_paths) as Hlf
    by (eapply Forall_impl; [exact Hall | by intros ? (? & ? & ?)]).
  destruct (join_stripped file_paths Hne Hstripped) as (Hj & Hjl & Hjr).
  unfold pasted_file_paths, open_file_dialog.
  destruct file_paths as [|p0 l0] eqn:El; [done|]. rewrite <- El in *.
  destruct (String.eqb_spec (PyStr.strip text) "") as [He | He]; cbn [negb].
  - unfold PyStr.strip at 1. rewrite Hjl, Hjr. by rewrite split_join.
  - destruct (strip_stripped text) as [Hel Her].
    assert (PyStr.strip (PyStr.strip text +:+ String PyStr.newline ""
                           +:+ PyStr.join (String PyStr.newline "") file_paths)
            = PyStr.strip text +:+ String PyStr.newline ""
                +:+ PyStr.join (String PyStr.newline "") file_paths) as ->.
    { unfold PyStr.strip at 1. rewrite lstrip_append by done.
      rewrite <- append_assoc. by rewrite rstrip_append. }
    change (?a +:+ String PyStr.newline "" +:+ ?x)
      with (a +:+ String PyStr.newline x).
    by rewrite split_append, split_join.
Qed.

Lemma dialog_paths_round_trip_witness :
  pasted_file_paths (open_file_dialog (" " +:+ sample_path +:+ nl) [sample_path2])
  = (if String.eqb (PyStr.strip (" " +:+ sample_path +:+ nl)) "" then []
     else pasted_file_paths (" " +:+ sample_path +:+ nl))
      ++ [sample_path2].
Proof.
  apply (dialog_paths_round_trip (" " +:+ sample_path +:+ nl) [sample_path2]).
  - discriminate.
  - repeat constructor. discriminate.
Defined.
